(** * Transaction reconciliation: the matching engine and its orchestration

    A shallow embedding of [src/core/matching_engine.py],
    [src/services/reconciliation_service.py] and the success-rate guard of
    [src/services/reporting_service.py], followed by the properties the
    design document states about them.

    Conventions of the embedding.
    - Python [float] is IEEE 754 binary64, i.e. Rocq's primitive [float];
      decimal literals denote the nearest binary64 value on both sides.
    - Python [int] is [Z]; [int / int] is the correctly rounded quotient.
    - A raised exception is the [Raise] branch of [result]; every exception
      that occurs in the modelled code derives from [Exception].
    - A dictionary key read with [d['k']] is a typed record field; a key read
      with [d.get('k', default)] is an [option] field ([None]: key absent).
    - Text is [string], the UTF-8 encoding of the Python [str]; the classes
      [\d], [\s] and [\w] of [re] hold the ASCII characters written out in
      their definitions and, outside ASCII, the characters that the Unicode
      database of the interpreter (a parameter) puts in them. *)

From Stdlib Require Import ZArith List String Ascii Bool Lia.
From Stdlib Require Import Floats SpecFloat FloatAxioms.
From Stdlib Require Import DecimalString Permutation Sorted.
Import ListNotations.

Set Warnings "-inexact-float".

Local Open Scope string_scope.
Local Open Scope Z_scope.

(** ** Exceptions and the error monad *)

Inductive exn : Type :=
| ZeroDivisionError (msg : string)
| OverflowError (msg : string)
| ValueError (msg : string)
| TypeError (msg : string)
| ImportError (msg : string)
| RequestException (msg : string).

(** [str(e)] *)
Definition exn_str (e : exn) : string :=
  match e with
  | ZeroDivisionError m | OverflowError m | ValueError m
  | TypeError m | ImportError m | RequestException m => m
  end.

Inductive result (A : Type) : Type :=
| Ok (a : A)
| Raise (e : exn).

Arguments Ok {A} a.
Arguments Raise {A} e.

Definition bind {A B : Type} (c : result A) (k : A -> result B) : result B :=
  match c with
  | Ok a => k a
  | Raise e => Raise e
  end.

Notation "x <- c ;; k" := (bind c (fun x => k))
  (at level 61, c at next level, right associativity).

(** ** Python values of loosely typed fields *)

Inductive pyval : Type :=
| PyNone
| PyStr (s : string)
| PyInt (z : Z).

(** Truth value of an object, as [if v:] / [not v] / [a or b] test it. *)
Definition truthy (v : pyval) : bool :=
  match v with
  | PyNone => false
  | PyStr s => negb (s =? "")%string
  | PyInt z => negb (z =? 0)
  end.

(** [str(v)] *)
Definition py_str (v : pyval) : string :=
  match v with
  | PyNone => "None"
  | PyStr s => s
  | PyInt z => NilZero.string_of_int (Z.to_int z)
  end.

(** [isinstance(v, str)] *)
Definition isinstance_str (v : pyval) : bool :=
  match v with
  | PyStr _ => true
  | _ => false
  end.

(** [a or b] *)
Definition py_or (a b : pyval) : pyval := if truthy a then a else b.

(** [d.get(key, default)] on an optional field. *)
Definition get (field : option pyval) (default : pyval) : pyval :=
  match field with
  | Some v => v
  | None => default
  end.

(** ** Strings *)

(** [sub in s] *)
Fixpoint str_in (sub s : string) : bool :=
  if String.prefix sub s then true
  else match s with
       | EmptyString => false
       | String _ s' => str_in sub s'
       end.

(** [s.replace(c, new)] for a one-character [c]. *)
Fixpoint str_replace (c : ascii) (new : string) (s : string) : string :=
  match s with
  | EmptyString => EmptyString
  | String a s' =>
      if Ascii.eqb a c then new ++ str_replace c new s'
      else String a (str_replace c new s')
  end.

(** ** Floating point and integer division *)

Definition Z2SF (z : Z) : spec_float :=
  match z with
  | Z0 => S754_zero false
  | Zpos p => S754_finite false p 0
  | Zneg p => S754_finite true p 0
  end.

(** [a / b] on two Python integers: the exact quotient rounded once to
    binary64; [ZeroDivisionError] on a zero divisor, [OverflowError] when the
    rounded quotient is out of range. *)
Definition py_truediv (a b : Z) : result float :=
  if b =? 0 then Raise (ZeroDivisionError "division by zero")
  else
    match SFdiv prec emax (Z2SF a) (Z2SF b) with
    | S754_infinity _ =>
        Raise (OverflowError "integer division result too large for a float")
    | q => Ok (SF2Prim q)
    end.

(** ** Timestamps *)

(** A [datetime]: the wall-clock reading in microseconds since
    0001-01-01T00:00:00, and the UTC offset (microseconds) when aware. *)
Record datetime : Type := mk_datetime {
  wall : Z;
  tzinfo : option Z
}.

Definition us_per_day : Z := 86400000000.

(** [d.replace(tzinfo=None)] *)
Definition replace_tzinfo_none (d : datetime) : datetime :=
  {| wall := wall d; tzinfo := None |}.

(** [a - b], a [timedelta] in microseconds. *)
Definition dt_sub (a b : datetime) : result Z :=
  match tzinfo a, tzinfo b with
  | None, None => Ok (wall a - wall b)
  | Some oa, Some ob => Ok ((wall a - oa) - (wall b - ob))
  | _, _ =>
      Raise (TypeError "can't subtract offset-naive and offset-aware datetimes")
  end.

(** [td.days]: a [timedelta] is normalised with a non-negative time part, so
    its day count is the floor. *)
Definition td_days (td : Z) : Z := td / us_per_day.

(** The calendar day (proleptic ordinal, from 0) of a timestamp. *)
Definition calendar_day (d : datetime) : Z := wall d / us_per_day.

(** ** Text

    A Python [str] is a sequence of Unicode code points; a [string] holds its
    UTF-8 encoding, and [chars] cuts an encoding into the encodings of its
    characters.  Substring tests, the replacement of an ASCII character and
    the comparison of two texts give the same answer on the encodings as on
    the code points. *)

Definition in_range (lo hi : N) (c : ascii) : bool :=
  (lo <=? N_of_ascii c)%N && (N_of_ascii c <=? hi)%N.

(** The number of bytes of the encoding that the byte [b] starts. *)
Definition utf8_width (b : ascii) : nat :=
  if in_range 192 223 b then 2
  else if in_range 224 239 b then 3
  else if in_range 240 247 b then 4
  else 1.

Definition is_continuation (b : ascii) : bool := in_range 128 191 b.

Definition flush (cur : string) : list string :=
  match cur with
  | EmptyString => []
  | _ => [cur]
  end.

(** [cur] is the character being read and [need] the number of continuation
    bytes it still expects. *)
Fixpoint chars_from (s cur : string) (need : nat) : list string :=
  match s with
  | EmptyString => flush cur
  | String b s' =>
      if match need with O => false | S _ => is_continuation b end then
        match need with
        | O | S O => (cur ++ String b "")%string :: chars_from s' "" 0
        | S k => chars_from s' (cur ++ String b "") k
        end
      else
        (flush cur ++
         match utf8_width b with
         | O | S O => String b "" :: chars_from s' "" 0
         | S w => chars_from s' (String b "") w
         end)%list
  end.

(** The characters of a text, in order. *)
Definition chars (s : string) : list string := chars_from s "" 0.

(** The text made of the given characters. *)
Definition join (cs : list string) : string :=
  fold_right String.append "" cs.

(** [len(s)] *)
Definition py_len (s : string) : nat := List.length (chars s).

(** The code point a character encodes. *)
Definition code_point (c : string) : N :=
  let low (b : ascii) (m : N) := (N_of_ascii b mod m)%N in
  match c with
  | EmptyString => 0%N
  | String b0 EmptyString => N_of_ascii b0
  | String b0 (String b1 EmptyString) => (low b0 32 * 64 + low b1 64)%N
  | String b0 (String b1 (String b2 EmptyString)) =>
      (low b0 16 * 4096 + low b1 64 * 64 + low b2 64)%N
  | String b0 (String b1 (String b2 (String b3 _))) =>
      (low b0 8 * 262144 + low b1 64 * 4096 + low b2 64 * 64 + low b3 64)%N
  end.

(** The encoding of a code point. *)
Definition utf8 (n : N) : string :=
  let byte (lead q m : N) := ascii_of_N (lead + (n / q) mod m)%N in
  (if n <? 128 then String (ascii_of_N n) ""
   else if n <? 2048 then
     String (byte 192 64 32) (String (byte 128 1 64) "")
   else if n <? 65536 then
     String (byte 224 4096 16)
       (String (byte 128 64 64) (String (byte 128 1 64) ""))
   else
     String (byte 240 262144 8)
       (String (byte 128 4096 64)
          (String (byte 128 64 64) (String (byte 128 1 64) ""))))%N.

(** The character when it is in the ASCII range. *)
Definition ascii_of_char (c : string) : option ascii :=
  match c with
  | String b EmptyString => if (N_of_ascii b <? 128)%N then Some b else None
  | _ => None
  end.

(** The character properties of the interpreter's Unicode database that the
    engine consults through [re] and [str.split], on the code points outside
    ASCII: white space ([\s], [split]), decimal digit ([\d]) and alphanumeric
    ([\w]). *)
Record unicode_db : Type := mk_unicode_db {
  uni_isspace : N -> bool;
  uni_isdecimal : N -> bool;
  uni_isalnum : N -> bool
}.

(** A class given by its ASCII members and by a property of the database. *)
Definition char_class (on_ascii : ascii -> bool) (elsewhere : N -> bool)
  (c : string) : bool :=
  match ascii_of_char c with
  | Some b => on_ascii b
  | None => elsewhere (code_point c)
  end.

Definition ascii_digit (b : ascii) : bool := in_range 48 57 b.

(** Tab, line feed, vertical tab, form feed, carriage return, the separators
    0x1c-0x1f, and space. *)
Definition ascii_space (b : ascii) : bool :=
  in_range 9 13 b || in_range 28 32 b.

Definition ascii_word (b : ascii) : bool :=
  in_range 97 122 b || in_range 65 90 b || ascii_digit b || Ascii.eqb b "_".

Definition to_lower (c : ascii) : ascii :=
  if in_range 65 90 c then ascii_of_N (N_of_ascii c + 32) else c.

(** A fragment of the Unicode database for the concrete evaluations: the
    white space outside ASCII, the decimal digits of four scripts, and the
    letters and numbers of the Latin-1 supplement. *)
Definition between (lo hi n : N) : bool := ((lo <=? n) && (n <=? hi))%N.

Definition ucd_fragment : unicode_db :=
  {| uni_isspace n :=
       N.eqb n 133 || N.eqb n 160 || N.eqb n 5760 || between 8192 8202 n
       || N.eqb n 8232 || N.eqb n 8233 || N.eqb n 8239 || N.eqb n 8287
       || N.eqb n 12288;
     uni_isdecimal n :=
       between 1632 1641 n || between 1776 1785 n || between 2406 2415 n
       || between 65296 65305 n;
     uni_isalnum n :=
       N.eqb n 170 || between 178 179 n || N.eqb n 181 || between 185 186 n
       || between 188 190 n || between 192 214 n || between 216 246 n
       || between 248 255 n
       || between 1632 1641 n || between 1776 1785 n || between 2406 2415 n
       || between 65296 65305 n |}.

(** ** Data model *)

(** A purchase record of the ticketing back-office. *)
Module Purchase.
Record t : Type := mk {
  id : Z;
  total : float;
  createdDate : string;
  createdBy : string;
  externalRef : option pyval;
  internalNotes : option pyval;
  eventName : option pyval
}.
End Purchase.

(** A banking transaction of the payment portal; [amount] is in minor units. *)
Module Txn.
Record t : Type := mk {
  id : Z;
  amount : Z;
  date : string;
  description : option pyval;
  extended_description : option pyval;
  last_four : option pyval;
  sub_account : option pyval
}.
End Txn.

(** ** [MatchingEngine] *)

Section Engine.

(** The Unicode database of the interpreter. *)
Variable ucd : unicode_db.

(** ** Regular expressions ([re.search] on the patterns the engine uses)

    Every pattern of the engine is a sequence of character classes, each with
    a greedy repetition range.  [re_match_here] is the backtracking matcher:
    an item first takes as many characters as it may and gives them back one
    at a time while the rest of the pattern fails.  The text is matched
    character by character; what an item matched is a list of characters. *)

Record atom : Type := mk_atom {
  a_class : string -> bool;
  a_min : nat;
  a_max : option nat;       (* [None]: unbounded *)
  a_group : bool            (* inside the capturing group *)
}.

Definition pattern : Type := list atom.

Definition may_take (hi : option nat) : bool :=
  match hi with
  | Some O => false
  | _ => true
  end.

Fixpoint re_repeat (c : string -> bool) (lo : nat) (hi : option nat)
  (k : list string -> option (list (list string))) (s taken : list string)
  : option (list (list string)) :=
  let stop :=
    match lo with
    | O => option_map (cons taken) (k s)
    | S _ => None
    end in
  match s with
  | ch :: s' =>
      if c ch && may_take hi then
        match re_repeat c (Nat.pred lo) (option_map Nat.pred hi) k s'
                (taken ++ [ch])%list with
        | Some r => Some r
        | None => stop
        end
      else stop
  | [] => stop
  end.

(** The characters each item matched when the pattern matches a prefix of
    [s]. *)
Fixpoint re_match_here (p : pattern) (s : list string)
  : option (list (list string)) :=
  match p with
  | [] => Some []
  | a :: p' =>
      re_repeat (a_class a) (a_min a) (a_max a) (re_match_here p') s []
  end.

(** Leftmost match: every start position, from the left. *)
Fixpoint re_scan (p : pattern) (s : list string)
  : option (list (list string)) :=
  match re_match_here p s with
  | Some parts => Some parts
  | None =>
      match s with
      | [] => None
      | _ :: s' => re_scan p s'
      end
  end.

(** [re.search(p, text)]: [TypeError] unless [text] is a string. *)
Definition re_search (p : pattern) (text : pyval)
  : result (option (list (list string))) :=
  match text with
  | PyStr s => Ok (re_scan p (chars s))
  | _ => Raise (TypeError "expected string or bytes-like object")
  end.

(** The characters of [match.group(0)] and of [match.group(1)]. *)
Definition group0 (parts : list (list string)) : list string :=
  List.concat parts.

Fixpoint group1 (p : pattern) (parts : list (list string)) : list string :=
  match p, parts with
  | a :: p', x :: parts' =>
      if a_group a then (x ++ group1 p' parts')%list else group1 p' parts'
  | _, _ => []
  end.

(** Character classes: the ASCII members are written out, the other members
    are those the Unicode database gives. *)

(** [\d] *)
Definition is_digit : string -> bool :=
  char_class ascii_digit (uni_isdecimal ucd).

(** [\s] *)
Definition is_space : string -> bool :=
  char_class ascii_space (uni_isspace ucd).

(** [\w]: alphanumeric, or the underscore. *)
Definition is_word : string -> bool :=
  char_class ascii_word (uni_isalnum ucd).

(** The character [b] itself. *)
Definition is_char (b : ascii) (c : string) : bool :=
  (c =? String b "")%string.

(** [[\w\.-]] *)
Definition is_email_char (c : string) : bool :=
  is_word c || is_char "." c || is_char "-" c.

(** An ASCII character of a pattern under [re.IGNORECASE]: the character in
    either case.  (The patterns of the engine hold the letter c and the signs
    # and :, and no character outside ASCII has the lower case c.) *)
Definition is_char_i (b : ascii) (c : string) : bool :=
  match ascii_of_char c with
  | Some x => Ascii.eqb (to_lower x) (to_lower b)
  | None => false
  end.

(** A literal character, and a literal under [re.IGNORECASE]. *)
Definition lit (c : ascii) : atom := mk_atom (is_char c) 1 (Some 1%nat) false.
Definition lit_i (c : ascii) : atom :=
  mk_atom (is_char_i c) 1 (Some 1%nat) false.

Definition star (cls : string -> bool) : atom := mk_atom cls 0 None false.
Definition plus (cls : string -> bool) : atom := mk_atom cls 1 None false.
Definition opt (cls : string -> bool) : atom := mk_atom cls 0 (Some 1%nat) false.

(** [(\d{4})] *)
Definition four_digits : atom := mk_atom is_digit 4 (Some 4%nat) true.

(** [r'[\w\.-]+@[\w\.-]+\.\w+'] *)
Definition email_pattern : pattern :=
  [plus is_email_char; lit "@"; plus is_email_char; lit "."; plus is_word].

(** The five card patterns, compiled with [re.IGNORECASE]:
    [CC#\s*(\d{4})], [CC:\s*(\d{4})], [CC\s+(\d{4})], [#(\d{4})],
    [cc\s?(\d{4})]. *)
Definition last_four_patterns : list pattern :=
  [ [lit_i "C"; lit_i "C"; lit_i "#"; star is_space; four_digits];
    [lit_i "C"; lit_i "C"; lit_i ":"; star is_space; four_digits];
    [lit_i "C"; lit_i "C"; plus is_space; four_digits];
    [lit_i "#"; four_digits];
    [lit_i "c"; lit_i "c"; opt is_space; four_digits] ].

(** ** [MatchingEngine]: free-text helpers (lines 150-173) *)

Definition _extract_email (text : pyval) : result (option string) :=
  if negb (truthy text) || negb (isinstance_str text) then Ok None
  else
    m <- re_search email_pattern text ;;
    match m with
    | Some parts => Ok (Some (join (group0 parts)))
    | None => Ok None
    end.

Fixpoint first_group_match (patterns : list pattern) (text : pyval)
  : result (option string) :=
  match patterns with
  | [] => Ok None
  | p :: rest =>
      m <- re_search p text ;;
      match m with
      | Some parts => Ok (Some (join (group1 p parts)))
      | None => first_group_match rest text
      end
  end.

Definition _extract_last_four (text : pyval) : result (option string) :=
  if negb (truthy text) || negb (isinstance_str text) then Ok None
  else first_group_match last_four_patterns text.

(** Values of the diagnostic [metadata] dictionary. *)
Inductive metaval : Type :=
| MVal (v : pyval)
| MFloat (f : float)
| MBool (b : bool).

Record MatchResult : Type := mk_MatchResult {
  skybox_id : Z;
  reveal_id : Z;
  confidence_score : float;
  match_criteria : list string;
  metadata : list (string * metaval)
}.

(** The dictionary [_extract_skybox_metadata] builds (lines 70-82). *)
Record purchase_meta : Type := mk_meta {
  m_id : Z;
  m_amount : float;
  m_created_date : datetime;
  m_is_automated : bool;
  m_external_ref : pyval;
  m_internal_notes : pyval;
  m_event_name : pyval;
  m_email : option string;
  m_last_four : option string
}.

Definition set_last_four (m : purchase_meta) (l4 : option string)
  : purchase_meta :=
  {| m_id := m_id m; m_amount := m_amount m;
     m_created_date := m_created_date m; m_is_automated := m_is_automated m;
     m_external_ref := m_external_ref m;
     m_internal_notes := m_internal_notes m; m_event_name := m_event_name m;
     m_email := m_email m; m_last_four := l4 |}.

(** ** A reader for the ISO 8601 layouts of the examples

    The engine is stated for an arbitrary [datetime.fromisoformat]; the
    concrete evaluations below use this reader, which covers [YYYY-MM-DD] and
    [YYYY-MM-DDTHH:MM:SS] with an optional [+HH:MM] / [-HH:MM] offset and
    answers [ValueError] on any other text. *)

Definition digit (c : ascii) : option Z :=
  if ascii_digit c then Some (Z.of_N (N_of_ascii c) - 48) else None.

Definition two_digits (a b : ascii) : option Z :=
  match digit a, digit b with
  | Some x, Some y => Some (10 * x + y)
  | _, _ => None
  end.

Definition four_digit_year (a b c d : ascii) : option Z :=
  match two_digits a b, two_digits c d with
  | Some x, Some y => Some (100 * x + y)
  | _, _ => None
  end.

Definition is_leap (y : Z) : bool :=
  (y mod 4 =? 0) && (negb (y mod 100 =? 0) || (y mod 400 =? 0)).

Definition days_in_month (y m : Z) : Z :=
  if m =? 2 then (if is_leap y then 29 else 28)
  else if (m =? 4) || (m =? 6) || (m =? 9) || (m =? 11) then 30
  else 31.

Definition days_before_month (y m : Z) : Z :=
  nth (Z.to_nat (m - 1)) [0; 31; 59; 90; 120; 151; 181; 212; 243; 273; 304; 334] 0
  + (if (2 <? m) && is_leap y then 1 else 0).

Definition days_before_year (y : Z) : Z :=
  (y - 1) * 365 + (y - 1) / 4 - (y - 1) / 100 + (y - 1) / 400.

(** Days from 0001-01-01 (day 0) to the given date. *)
Definition ordinal0 (y m d : Z) : Z :=
  days_before_year y + days_before_month y m + (d - 1).

Definition parse_date (y1 y2 y3 y4 m1 m2 d1 d2 : ascii) : option Z :=
  match four_digit_year y1 y2 y3 y4, two_digits m1 m2, two_digits d1 d2 with
  | Some y, Some m, Some d =>
      if (1 <=? y) && (1 <=? m) && (m <=? 12) && (1 <=? d)
         && (d <=? days_in_month y m)
      then Some (ordinal0 y m d * us_per_day)
      else None
  | _, _, _ => None
  end.

Definition parse_time (h1 h2 m1 m2 s1 s2 : ascii) : option Z :=
  match two_digits h1 h2, two_digits m1 m2, two_digits s1 s2 with
  | Some h, Some m, Some s =>
      if (h <? 24) && (m <? 60) && (s <? 60)
      then Some ((h * 3600 + m * 60 + s) * 1000000)
      else None
  | _, _, _ => None
  end.

Definition parse_offset (l : list ascii) : option (option Z) :=
  match l with
  | [] => Some None
  | [sg; h1; h2; c; m1; m2] =>
      match two_digits h1 h2, two_digits m1 m2 with
      | Some h, Some m =>
          if Ascii.eqb c ":" && (h <? 24) && (m <? 60) then
            let off := (h * 3600 + m * 60) * 1000000 in
            if Ascii.eqb sg "+" then Some (Some off)
            else if Ascii.eqb sg "-" then Some (Some (- off))
            else None
          else None
      | _, _ => None
      end
  | _ => None
  end.

Definition invalid_isoformat (s : string) : exn :=
  ValueError ("Invalid isoformat string: '" ++ s ++ "'").

Definition iso_reader (s : string) : result datetime :=
  match list_ascii_of_string s with
  | y1 :: y2 :: y3 :: y4 :: c1 :: m1 :: m2 :: c2 :: d1 :: d2 :: rest =>
      if Ascii.eqb c1 "-" && Ascii.eqb c2 "-" then
        match parse_date y1 y2 y3 y4 m1 m2 d1 d2, rest with
        | Some day, [] => Ok (mk_datetime day None)
        | Some day, _ :: h1 :: h2 :: c3 :: n1 :: n2 :: c4 :: s1 :: s2 :: tz =>
            if Ascii.eqb c3 ":" && Ascii.eqb c4 ":" then
              match parse_time h1 h2 n1 n2 s1 s2, parse_offset tz with
              | Some t, Some off => Ok (mk_datetime (day + t) off)
              | _, _ => Raise (invalid_isoformat s)
              end
            else Raise (invalid_isoformat s)
        | _, _ => Raise (invalid_isoformat s)
        end
      else Raise (invalid_isoformat s)
  | _ => Raise (invalid_isoformat s)
  end.

(** The report of one reconciliation run, and a match as serialised in it. *)
Record match_dict : Type := mk_match_dict {
  d_skybox_id : Z;
  d_reveal_id : Z;
  d_confidence : float;
  d_criteria : list string;
  d_metadata : list (string * metaval)
}.

Record ReconciliationResult : Type := mk_ReconciliationResult {
  timestamp : string;
  total_purchases : Z;
  total_transactions : Z;
  matches_found : Z;
  matches_updated : Z;
  unmatched_purchases : Z;
  errors : list string;
  matches : list match_dict
}.

(** [len(l)] *)
Definition len {A : Type} (l : list A) : Z := Z.of_nat (List.length l).

(** [datetime.fromisoformat] *)
Variable fromisoformat : string -> result datetime.

(** [datetime.fromisoformat(s.replace('Z', '+00:00')).replace(tzinfo=None)]
    (lines 73 and 209). *)
Definition parse_created (s : string) : result datetime :=
  d <- fromisoformat (str_replace "Z" "+00:00" s) ;;
  Ok (replace_tzinfo_none d).

(** Lines 68-84. *)
Definition _extract_skybox_metadata (purchase : Purchase.t)
  : result purchase_meta :=
  created_date <- parse_created (Purchase.createdDate purchase) ;;
  let is_automated :=
    (Purchase.createdBy purchase =? "SeatScouts")%string
    || (Purchase.createdBy purchase =? "Lotus Tickets Sale Tracking")%string in
  let internal_notes := get (Purchase.internalNotes purchase) (PyStr "") in
  email <- _extract_email internal_notes ;;
  last_four <- _extract_last_four internal_notes ;;
  Ok {| m_id := Purchase.id purchase;
        m_amount := Purchase.total purchase;
        m_created_date := created_date;
        m_is_automated := is_automated;
        m_external_ref := get (Purchase.externalRef purchase) PyNone;
        m_internal_notes := internal_notes;
        m_event_name := get (Purchase.eventName purchase) (PyStr "");
        m_email := email;
        m_last_four := last_four |}.

(** [abs(reveal_txn['amount']) / 100] (lines 94, 109 and 213). *)
Definition reveal_amount (txn : Txn.t) : result float :=
  py_truediv (Z.abs (Txn.amount txn)) 100.

(** Strategy 1, lines 86-103. *)
Definition _match_by_order_number (meta : purchase_meta) (reveal_txn : Txn.t)
  : result (option MatchResult) :=
  let order_num := m_external_ref meta in
  if negb (truthy order_num) then Ok None
  else
    let desc := get (Txn.description reveal_txn) (PyStr "") in
    let ext_desc :=
      py_or (get (Txn.extended_description reveal_txn) (PyStr "")) (PyStr "") in
    if str_in (py_str order_num) (py_str desc)
       || str_in (py_str order_num) (py_str ext_desc)
    then
      amount <- reveal_amount reveal_txn ;;
      if (abs (amount - m_amount meta) <? 0.01)%float then
        Ok (Some {| skybox_id := m_id meta;
                    reveal_id := Txn.id reveal_txn;
                    confidence_score := 1.0%float;
                    match_criteria := ["order_number"; "amount"];
                    metadata := [("order_number", MVal order_num);
                                 ("amount_diff", MVal (PyInt 0))] |})
      else Ok None
    else Ok None.

(** [abs((a - b).days)] (lines 121 and 217). *)
Definition days_between (a b : datetime) : result Z :=
  delta <- dt_sub a b ;;
  Ok (Z.abs (td_days delta)).

(** The two locals [criteria_met] and [score] of strategy 2. *)
Definition signals : Type := (list string * float)%type.

(** Lines 111-118; [None] is the early [return None]. *)
Definition amount_signal (amount_diff : float) (st : signals)
  : option signals :=
  let '(criteria_met, score) := st in
  if (amount_diff <? 0.01)%float then
    Some ((criteria_met ++ ["amount_exact"])%list, (score + 0.40)%float)
  else if (amount_diff <? 1.0)%float then
    Some ((criteria_met ++ ["amount_close"])%list, (score + 0.20)%float)
  else None.

(** Lines 122-127. *)
Definition date_signal (date_diff : Z) (st : signals) : signals :=
  let '(criteria_met, score) := st in
  if date_diff <=? 0 then
    ((criteria_met ++ ["date_same_day"])%list, (score + 0.30)%float)
  else if date_diff <=? 3 then
    ((criteria_met ++ ["date_within_3_days"])%list, (score + 0.20)%float)
  else st.

(** Lines 129-133. *)
Definition last_four_signal (meta : purchase_meta) (reveal_txn : Txn.t)
  (st : signals) : signals :=
  let '(criteria_met, score) := st in
  match m_last_four meta with
  | Some l4 =>
      if negb (l4 =? "")%string then
        let reveal_last4 :=
          py_or (get (Txn.last_four reveal_txn) PyNone)
                (get (Txn.sub_account reveal_txn) (PyStr "")) in
        if str_in l4 (py_str reveal_last4) then
          ((criteria_met ++ ["last_four"])%list, (score + 0.20)%float)
        else st
      else st
  | None => st
  end.

(** Strategy 2 up to the acceptance test (lines 106-133): the signals that
    fired, their weighted sum and the amount difference. *)
Definition multi_criteria_signals (meta : purchase_meta) (reveal_txn : Txn.t)
  : result (option (signals * float)) :=
  amount <- reveal_amount reveal_txn ;;
  let amount_diff := abs (amount - m_amount meta)%float in
  match amount_signal amount_diff ([], 0.0%float) with
  | None => Ok None
  | Some st =>
      reveal_date <- fromisoformat (Txn.date reveal_txn) ;;
      date_diff <- days_between reveal_date (m_created_date meta) ;;
      let st := date_signal date_diff st in
      let st := last_four_signal meta reveal_txn st in
      Ok (Some (st, amount_diff))
  end.

(** Strategy 2, lines 105-143. *)
Definition _match_by_multiple_criteria (meta : purchase_meta)
  (reveal_txn : Txn.t) : result (option MatchResult) :=
  sig <- multi_criteria_signals meta reveal_txn ;;
  match sig with
  | None => Ok None
  | Some ((criteria_met, score), amount_diff) =>
      if (0.75 <=? score)%float then
        Ok (Some {| skybox_id := m_id meta;
                    reveal_id := Txn.id reveal_txn;
                    confidence_score := score;
                    match_criteria := criteria_met;
                    metadata := [("amount_diff", MFloat amount_diff);
                                 ("is_automated", MBool (m_is_automated meta))] |})
      else Ok None
  end.

(** Strategy 3, lines 145-146. *)
Definition _match_by_email_metadata (meta : purchase_meta) (reveal_txn : Txn.t)
  : result (option MatchResult) :=
  Ok None.

(** The body of the loop of [match_transactions] (lines 44-59): the three
    strategies in order, the first result wins. *)
Definition score_candidate (meta : purchase_meta) (reveal_txn : Txn.t)
  : result (option MatchResult) :=
  r1 <- _match_by_order_number meta reveal_txn ;;
  match r1 with
  | Some r => Ok (Some r)
  | None =>
      r2 <- _match_by_multiple_criteria meta reveal_txn ;;
      match r2 with
      | Some r => Ok (Some r)
      | None => _match_by_email_metadata meta reveal_txn
      end
  end.

(** The loop of lines 43-59: the results, in the order of the transactions. *)
Fixpoint scan_candidates (meta : purchase_meta) (reveal_transactions : list Txn.t)
  : result (list MatchResult) :=
  match reveal_transactions with
  | [] => Ok []
  | reveal_txn :: rest =>
      r <- score_candidate meta reveal_txn ;;
      candidates <- scan_candidates meta rest ;;
      match r with
      | Some c => Ok (c :: candidates)
      | None => Ok candidates
      end
  end.

(** [max(c :: cs, key=lambda x: x.confidence_score)]: a later element replaces
    the running maximum only when its key is strictly greater. *)
Definition py_max (c : MatchResult) (cs : list MatchResult) : MatchResult :=
  fold_left
    (fun best x =>
       if (confidence_score best <? confidence_score x)%float then x else best)
    cs c.

(** Lines 34-66. *)
Definition match_transactions (skybox_purchase : Purchase.t)
  (reveal_transactions : list Txn.t) : result (option MatchResult) :=
  meta <- _extract_skybox_metadata skybox_purchase ;;
  candidates <- scan_candidates meta reveal_transactions ;;
  match candidates with
  | [] => Ok None
  | c :: cs =>
      let best_match := py_max c cs in
      if (0.75 <=? confidence_score best_match)%float then Ok (Some best_match)
      else Ok None
  end.

(** ** Candidate filter and batch matching *)

(** The loop of lines 212-221. *)
Fixpoint filter_loop (amount : float) (created : datetime)
  (all_transactions : list Txn.t) : result (list Txn.t) :=
  match all_transactions with
  | [] => Ok []
  | txn :: rest =>
      txn_amount <- reveal_amount txn ;;
      txn_date <- fromisoformat (Txn.date txn) ;;
      let amount_match := (abs (txn_amount - amount) <? 5.0)%float in
      date_diff <- days_between txn_date created ;;
      let date_match := date_diff <=? 7 in
      candidates <- filter_loop amount created rest ;;
      if amount_match && date_match then Ok (txn :: candidates)
      else Ok candidates
  end.

(** Lines 206-223. *)
Definition _filter_candidate_transactions (purchase : Purchase.t)
  (all_transactions : list Txn.t) : result (list Txn.t) :=
  let amount := Purchase.total purchase in
  created <- parse_created (Purchase.createdDate purchase) ;;
  filter_loop amount created all_transactions.

(** [sorted(purchases, key=lambda x: x['createdDate'])]: the stable sort on
    the creation text. *)
Fixpoint insert_by_created (x : Purchase.t) (l : list Purchase.t)
  : list Purchase.t :=
  match l with
  | [] => [x]
  | y :: l' =>
      if (Purchase.createdDate y <? Purchase.createdDate x)%string
      then y :: insert_by_created x l'
      else x :: l
  end.

Definition sorted_by_created (purchases : list Purchase.t) : list Purchase.t :=
  fold_right insert_by_created [] purchases.

(** The loop of lines 195-201 (and of lines 174-186 of the service). *)
Fixpoint batch_loop (sorted_purchases : list Purchase.t)
  (reveal_transactions : list Txn.t)
  : result (list MatchResult * list Purchase.t) :=
  match sorted_purchases with
  | [] => Ok ([], [])
  | purchase :: rest =>
      candidates <- _filter_candidate_transactions purchase reveal_transactions ;;
      match_result <- match_transactions purchase candidates ;;
      r <- batch_loop rest reveal_transactions ;;
      let '(matched, unmatched) := r in
      match match_result with
      | Some m => Ok (m :: matched, unmatched)
      | None => Ok (matched, purchase :: unmatched)
      end
  end.

(** Lines 184-203. *)
Definition batch_match_transactions (skybox_purchases : list Purchase.t)
  (reveal_transactions : list Txn.t)
  : result (list MatchResult * list Purchase.t) :=
  batch_loop (sorted_by_created skybox_purchases) reveal_transactions.

(** ** [ReconciliationService] *)

(** [ReconciliationService._batch_match], lines 155-188. *)
Definition _batch_match (purchases : list Purchase.t)
  (transactions : list Txn.t) : result (list MatchResult * list Purchase.t) :=
  batch_loop (sorted_by_created purchases) transactions.

(** Lines 109-118. *)
Definition to_match_dict (m : MatchResult) : match_dict :=
  {| d_skybox_id := skybox_id m;
     d_reveal_id := reveal_id m;
     d_confidence := confidence_score m;
     d_criteria := match_criteria m;
     d_metadata := metadata m |}.

(** The [except Exception] handler, lines 140-153; [purchases] and
    [transactions] are the locals bound when the exception was raised. *)
Definition on_exception (now : string) (e : exn)
  (purchases : option (list Purchase.t)) (transactions : option (list Txn.t))
  (matches : list match_dict) : ReconciliationResult :=
  {| timestamp := now;
     total_purchases := match purchases with Some l => len l | None => 0 end;
     total_transactions := match transactions with Some l => len l | None => 0 end;
     matches_found := len matches;
     matches_updated := 0;
     unmatched_purchases := 0;
     errors := ([] ++ [exn_str e])%list;
     matches := matches |}.

(** The success rate logged on line 135:
    [result.matches_found/result.total_purchases*100]. *)
Definition logged_success_rate (r : ReconciliationResult) : result float :=
  q <- py_truediv (matches_found r) (total_purchases r) ;;
  Ok (q * 100)%float.

(** [reconcile_transactions], lines 58-153.  [debugger] is what the
    breakpoint of line 82 does ([Ok tt]: execution resumes; a missing module
    raises [ImportError]); [get_unreconciled_purchases] and
    [get_unmatched_transactions] are what the two fetch collaborators do;
    [now] is the clock reading. *)
Definition reconcile_transactions (now : string) (debugger : result unit)
  (get_unreconciled_purchases : result (list Purchase.t))
  (get_unmatched_transactions : result (list Txn.t)) : ReconciliationResult :=
  match debugger with
  | Raise e => on_exception now e None None []
  | Ok _ =>
  match get_unreconciled_purchases with
  | Raise e => on_exception now e None None []
  | Ok purchases =>
  match get_unmatched_transactions with
  | Raise e => on_exception now e (Some purchases) None []
  | Ok transactions =>
  match _batch_match purchases transactions with
  | Raise e => on_exception now e (Some purchases) (Some transactions) []
  | Ok (matched, unmatched) =>
      let updated_count := 0 in
      let matches := map to_match_dict matched in
      let result :=
        {| timestamp := now;
           total_purchases := len purchases;
           total_transactions := len transactions;
           matches_found := len matched;
           matches_updated := updated_count;
           unmatched_purchases := len unmatched;
           errors := [];
           matches := matches |} in
      match logged_success_rate result with
      | Raise e =>
          on_exception now e (Some purchases) (Some transactions) matches
      | Ok _ => result
      end
  end end end end.

(** ** [ReportingService]: the success rate of [_generate_summary], line 48. *)
Definition summary_success_rate (r : ReconciliationResult) : result float :=
  if 0 <? total_purchases r then
    q <- py_truediv (matches_found r) (total_purchases r) ;;
    Ok (q * 100)%float
  else Ok 0%float.

(** ** [MatchingEngine._extract_keywords], lines 175-179 *)

(** [s.lower()] on the ASCII letters; the bytes of other characters are kept
    as they are. *)
Fixpoint str_lower (s : string) : string :=
  match s with
  | EmptyString => EmptyString
  | String c s' => String (to_lower c) (str_lower s')
  end.

(** [s.split()]: the maximal runs of characters that are not white space;
    [word] is the run being read. *)
Fixpoint split_loop (cs : list string) (word : string) : list string :=
  match cs with
  | [] => if (word =? "")%string then [] else [word]
  | c :: cs' =>
      if is_space c then
        if (word =? "")%string then split_loop cs' ""
        else word :: split_loop cs' ""
      else split_loop cs' (word ++ c)
  end.

Definition py_split (s : string) : list string := split_loop (chars s) "".

Definition stop_words : list string :=
  ["at"; "vs"; "parking"; "the"; "a"; "an"; "and"; "or"].

Definition is_keyword (w : string) : bool :=
  negb (existsb (String.eqb w) stop_words) && (2 <? py_len w)%nat.

Definition _extract_keywords (event_name : pyval) : list string :=
  if negb (truthy event_name) then []
  else
    let words := py_split (str_lower (py_str event_name)) in
    firstn 3 (filter is_keyword words).

(** ** [ReconciliationService._update_systems], lines 190-242 *)

(** The calls the update step can make on its two collaborators. *)
Inductive call : Type :=
| update_purchase_payment
    (purchase_id credit_card_group_id credit_card_id : Z) (mark_as_paid : bool)
| mark_transaction_matched (transaction_id skybox_purchase_id : Z).

(** An entry of the card mapping, and the mapping (a dictionary keyed by
    account name, in insertion order). *)
Record cc_info : Type := mk_cc_info {
  credit_card_group_id : Z;
  credit_card_id : Z
}.

Definition cc_mapping : Type := list (string * cc_info).

(** [mapping.get(key)] *)
Fixpoint mapping_get (mapping : cc_mapping) (key : pyval) : option cc_info :=
  match mapping, key with
  | (k, v) :: rest, PyStr s =>
      if (k =? s)%string then Some v else mapping_get rest key
  | _, _ => None
  end.

(** [d.get(key)] on a dictionary of scalar values. *)
Fixpoint dict_get (d : list (string * pyval)) (key : string) : pyval :=
  match d with
  | [] => PyNone
  | (k, v) :: rest => if (k =? key)%string then v else dict_get rest key
  end.

(** Lines 239-242: the body is [pass], so the helper returns [None]. *)
Definition _get_reveal_transaction (transaction_id : Z)
  : option (list (string * pyval)) :=
  None.

(** One iteration of the loop of lines 199-235, on the pair of the running
    [success_count] and the calls made so far; an exception of a collaborator
    is caught inside the iteration. *)
Definition update_one
  (skybox_update : Z -> Z -> Z -> bool -> result bool)
  (reveal_mark : Z -> Z -> result bool)
  (mapping : cc_mapping) (st : Z * list call) (m : MatchResult)
  : Z * list call :=
  let '(success_count, calls) := st in
  match _get_reveal_transaction (reveal_id m) with
  | None => st
  | Some [] => st
  | Some reveal_txn =>
      let account_name := dict_get reveal_txn "account__name" in
      match mapping_get mapping account_name with
      | None => st
      | Some info =>
          let c1 := update_purchase_payment (skybox_id m)
                      (credit_card_group_id info) (credit_card_id info) true in
          match skybox_update (skybox_id m) (credit_card_group_id info)
                              (credit_card_id info) true with
          | Raise _ => (success_count, (calls ++ [c1])%list)
          | Ok skybox_success =>
              let c2 := mark_transaction_matched (reveal_id m) (skybox_id m) in
              match reveal_mark (reveal_id m) (skybox_id m) with
              | Raise _ => (success_count, (calls ++ [c1; c2])%list)
              | Ok reveal_success =>
                  (if skybox_success && reveal_success
                   then success_count + 1 else success_count,
                   (calls ++ [c1; c2])%list)
              end
          end
      end
  end.

(** The number of matches written back, and the calls made. *)
Definition _update_systems
  (skybox_update : Z -> Z -> Z -> bool -> result bool)
  (reveal_mark : Z -> Z -> result bool)
  (mapping : cc_mapping) (matches : list MatchResult) : Z * list call :=
  fold_left (update_one skybox_update reveal_mark mapping) matches (0, []).

(** ** The HTTP endpoint [reconcile_transactions] of [api/main.py],
    lines 202-269 *)

Record ReconcileRequest : Type := mk_ReconcileRequest {
  start_date : option string;
  end_date : option string;
  dry_run : bool
}.

Record ReconcileResponse : Type := mk_ReconcileResponse {
  job_id : string;
  status : string;
  message : string;
  result_dict : option ReconciliationResult
}.

(** What a call of the endpoint ends in: a response, an [HTTPException], or
    another exception that leaves the function. *)
Inductive outcome (A : Type) : Type :=
| Returned (a : A)
| HTTPException (status_code : Z) (detail : string)
| Unhandled (e : exn).

#[global] Arguments Returned {A} a.
#[global] Arguments HTTPException {A} status_code detail.
#[global] Arguments Unhandled {A} e.

(** [d - timedelta(days=n)]: a date before 0001-01-01 is out of range. *)
Definition minus_days (d : datetime) (n : Z) : result datetime :=
  let w := wall d - n * us_per_day in
  if w <? 0 then Raise (OverflowError "date value out of range")
  else Ok {| wall := w; tzinfo := tzinfo d |}.

(** Lines 225-229 and 231-235: an optional date of the request. *)
Definition parse_request_date (field : option string) (name : string)
  : outcome (option datetime) :=
  match field with
  | None => Returned None
  | Some s =>
      if (s =? "")%string then Returned None
      else
        match fromisoformat s with
        | Ok d => Returned (Some d)
        | Raise (ValueError _) =>
            HTTPException 400 ("Invalid " ++ name ++ " format. Use YYYY-MM-DD")
        | Raise e => Unhandled e
        end
  end.

(** Lines 221-241: the date window of the run; [clock] is [datetime.now()]. *)
Definition resolve_window (request : ReconcileRequest) (clock : datetime)
  : outcome (datetime * datetime) :=
  match parse_request_date (start_date request) "start_date" with
  | HTTPException c d => HTTPException c d
  | Unhandled e => Unhandled e
  | Returned start =>
  match parse_request_date (end_date request) "end_date" with
  | HTTPException c d => HTTPException c d
  | Unhandled e => Unhandled e
  | Returned finish =>
      let finish := match finish with Some d => d | None => clock end in
      match start with
      | Some d => Returned (d, finish)
      | None =>
          match minus_days finish 30 with
          | Ok d => Returned (d, finish)
          | Raise e => Unhandled e
          end
      end
  end end.

(** The endpoint.  [get_services] is what building the services does;
    [fetch_purchases] and [fetch_transactions] are the two clients, called
    with the window; [generate_daily_report] is what writing the report
    does; [debugger] and [now] are as in the service. *)
Definition reconcile_endpoint (uuid4 : string) (clock : datetime) (now : string)
  (get_services : result unit) (debugger : result unit)
  (fetch_purchases : datetime -> datetime -> result (list Purchase.t))
  (fetch_transactions : datetime -> datetime -> result (list Txn.t))
  (generate_daily_report : ReconciliationResult -> result string)
  (request : ReconcileRequest) : outcome ReconcileResponse :=
  match resolve_window request clock with
  | HTTPException c d => HTTPException c d
  | Unhandled e => Unhandled e
  | Returned (start, finish) =>
      let body :=
        _ <- get_services ;;
        let result := reconcile_transactions now debugger
                        (fetch_purchases start finish)
                        (fetch_transactions start finish) in
        report_path <- generate_daily_report result ;;
        Ok {| job_id := uuid4;
              status := "completed";
              message := "Reconciliation complete. Matched "
                         ++ py_str (PyInt (matches_found result)) ++ "/"
                         ++ py_str (PyInt (total_purchases result))
                         ++ " purchases.";
              result_dict := Some result |} in
      match body with
      | Ok response => Returned response
      | Raise e => HTTPException 500 ("Reconciliation failed: " ++ exn_str e)
      end
  end.

(** ** Vocabulary of the statements *)


(** The inclusion rule of the candidate filter on one transaction, [false]
    where the loop would raise. *)
Definition keeps (amount : float) (created : datetime) (txn : Txn.t) : bool :=
  match reveal_amount txn, fromisoformat (Txn.date txn) with
  | Ok txn_amount, Ok txn_date =>
      match days_between txn_date created with
      | Ok date_diff =>
          (abs (txn_amount - amount) <? 5.0)%float && (date_diff <=? 7)
      | Raise _ => false
      end
  | _, _ => false
  end.

(** The date of a transaction makes the day count raise [e]: it does not
    read, or it reads as an aware timestamp. *)
Definition date_fails (txn : Txn.t) (e : exn) : Prop :=
  fromisoformat (Txn.date txn) = Raise e
  \/ (exists d off,
        fromisoformat (Txn.date txn) = Ok d
        /\ tzinfo d = Some off
        /\ e = TypeError "can't subtract offset-naive and offset-aware datetimes").

(** The purchases are in ascending order of their creation text. *)
Definition created_leb (x y : Purchase.t) : Prop :=
  (Purchase.createdDate x <=? Purchase.createdDate y)%string = true.

(** ** Scores strategy 2 can accept, and their order *)

Definition score_same_day_last_four : float := (0.0 + 0.40 + 0.30 + 0.20)%float.
Definition score_3_days_last_four : float := (0.0 + 0.40 + 0.20 + 0.20)%float.

(** The confidences a candidate result can carry. *)
Definition valid_confidence (f : float) : Prop :=
  f = 1.0%float \/ f = score_same_day_last_four \/ f = score_3_days_last_four.

Definition rank (f : float) : nat :=
  if (f =? 1.0)%float then 3
  else if (f =? score_same_day_last_four)%float then 2
  else 1.

(** The signals of strategy 2 as a function of which ones fire. *)
Definition fired (exact : bool) (day : option bool) (l4 : bool) : signals :=
  let st :=
    if exact then (["amount_exact"], (0.0 + 0.40)%float)
    else (["amount_close"], (0.0 + 0.20)%float) in
  let st :=
    match day with
    | Some true => ((fst st ++ ["date_same_day"])%list, (snd st + 0.30)%float)
    | Some false => ((fst st ++ ["date_within_3_days"])%list, (snd st + 0.20)%float)
    | None => st
    end in
  if l4 then ((fst st ++ ["last_four"])%list, (snd st + 0.20)%float) else st.

(** What a purchase and a transaction qualify for, read off the input: the
    amount is exact and the engine's day difference is [date_diff]; the date
    signal of that day difference ([Some true]: same day, [Some false]:
    within three days); and whether the purchase's last-4 occurs in the
    transaction's card digits or sub-account. *)
Definition exact_amount_pair (meta : purchase_meta) (reveal_txn : Txn.t)
  (date_diff : Z) : Prop :=
  exists amount reveal_date,
    reveal_amount reveal_txn = Ok amount
    /\ (abs (amount - m_amount meta) <? 0.01)%float = true
    /\ fromisoformat (Txn.date reveal_txn) = Ok reveal_date
    /\ days_between reveal_date (m_created_date meta) = Ok date_diff.

Definition date_qualifies (date_diff : Z) : option bool :=
  if date_diff <=? 0 then Some true
  else if date_diff <=? 3 then Some false
  else None.

Definition last_four_qualifies (meta : purchase_meta) (reveal_txn : Txn.t)
  : bool :=
  match m_last_four meta with
  | Some l4 =>
      negb (l4 =? "")%string
      && str_in l4 (py_str (py_or (get (Txn.last_four reveal_txn) PyNone)
                                  (get (Txn.sub_account reveal_txn) (PyStr ""))))
  | None => false
  end.

(** A transaction every strategy can evaluate: its amount converts and its
    date reads as a naive timestamp. *)
Definition well_formed (txn : Txn.t) : Prop :=
  (exists a, reveal_amount txn = Ok a)
  /\ (exists d, fromisoformat (Txn.date txn) = Ok d /\ tzinfo d = None).

(** The test of line 93: the reference, as text, occurs in the description or
    in the extended description. *)
Definition mentions (order_num : pyval) (reveal_txn : Txn.t) : Prop :=
  str_in (py_str order_num)
         (py_str (get (Txn.description reveal_txn) (PyStr ""))) = true
  \/ str_in (py_str order_num)
            (py_str (py_or (get (Txn.extended_description reveal_txn) (PyStr ""))
                           (PyStr ""))) = true.

(** [incl] on criteria lists, decided. *)
Definition inclb (c c' : list string) : bool :=
  forallb (fun x => existsb (String.eqb x) c') c.

(** ** Examples *)

(** The two end-to-end examples of the design document, and variations. *)
Definition purchase_1 : Purchase.t :=
  Purchase.mk 1 150.0%float "2026-02-01" "SeatScouts"
              (Some (PyStr "ORD123")) None None.

Definition txn_9 : Txn.t :=
  Txn.mk 9 15000 "2026-02-01" (Some (PyStr "Payment ORD123 processed"))
         None None None.

(** A second transaction that carries the same order number. *)
Definition txn_19 : Txn.t :=
  Txn.mk 19 15000 "2026-02-02" (Some (PyStr "Refund ORD123"))
         None None None.

(** A transaction 50.00 away from the total of [purchase_1]. *)
Definition txn_far : Txn.t :=
  Txn.mk 11 20000 "2026-02-01" (Some (PyStr "Payment ORD123 processed"))
         None None None.

Definition purchase_2 : Purchase.t :=
  Purchase.mk 2 75.0%float "2026-02-01" "ops" None None None.

Definition txn_10 : Txn.t :=
  Txn.mk 10 7500 "2026-02-01" None None None None.

(** [purchase_2] with card digits in its notes, and a transaction on that
    card. *)
Definition purchase_2_card : Purchase.t :=
  Purchase.mk 2 75.0%float "2026-02-01" "ops" None
              (Some (PyStr "paid CC# 4242")) None.

Definition txn_10_card : Txn.t :=
  Txn.mk 10 7500 "2026-02-01" None None None (Some (PyStr "Venture X 4242")).

(** [purchase_2] created at three in the afternoon of the same day. *)
Definition purchase_3 : Purchase.t :=
  Purchase.mk 3 75.0%float "2026-02-01T15:00:00Z" "ops" None None None.

(** What [_extract_skybox_metadata] yields on the example purchases. *)
Definition midnight_2026_02_01 : datetime :=
  {| wall := 63905500800000000; tzinfo := None |}.

Definition meta_1 : purchase_meta :=
  {| m_id := 1; m_amount := 150.0%float;
     m_created_date := midnight_2026_02_01; m_is_automated := true;
     m_external_ref := PyStr "ORD123"; m_internal_notes := PyStr "";
     m_event_name := PyStr ""; m_email := None; m_last_four := None |}.

Definition meta_2 : purchase_meta :=
  {| m_id := 2; m_amount := 75.0%float;
     m_created_date := midnight_2026_02_01; m_is_automated := false;
     m_external_ref := PyNone; m_internal_notes := PyStr "";
     m_event_name := PyStr ""; m_email := None; m_last_four := None |}.

Definition meta_2_card : purchase_meta :=
  {| m_id := 2; m_amount := 75.0%float;
     m_created_date := midnight_2026_02_01; m_is_automated := false;
     m_external_ref := PyNone; m_internal_notes := PyStr "paid CC# 4242";
     m_event_name := PyStr ""; m_email := None; m_last_four := Some "4242" |}.

Definition meta_3 : purchase_meta :=
  {| m_id := 3; m_amount := 75.0%float;
     m_created_date := {| wall := 63905554800000000; tzinfo := None |};
     m_is_automated := false;
     m_external_ref := PyNone; m_internal_notes := PyStr "";
     m_event_name := PyStr ""; m_email := None; m_last_four := None |}.

(** All counts of a report are zero. *)
Definition zero_counts (r : ReconciliationResult) : Prop :=
  total_purchases r = 0
  /\ total_transactions r = 0
  /\ matches_found r = 0
  /\ matches_updated r = 0
  /\ unmatched_purchases r = 0.

(** A transaction whose date carries a UTC offset. *)
Definition txn_aware : Txn.t :=
  Txn.mk 12 999900 "2026-02-01T10:00:00+00:00" None None None None.

(** A later purchase of the same amount paid with the same card. *)
Definition purchase_4_card : Purchase.t :=
  Purchase.mk 4 75.0%float "2026-02-02" "ops" None
              (Some (PyStr "cc 4242")) None.

(** A request without dates, and a clock reading (2026-02-03T00:00:00). *)
Definition request_default : ReconcileRequest :=
  {| start_date := None; end_date := None; dry_run := true |}.

Definition clock_2026_02_03 : datetime :=
  {| wall := 63905673600000000; tzinfo := None |}.

(** * Properties *)

(** ** The error monad *)

Lemma bind_Ok {A B : Type} (c : result A) (k : A -> result B) (b : B) :
  bind c k = Ok b -> exists a, c = Ok a /\ k a = Ok b.
Proof.
  destruct c as [a | e]; simpl; intros H; [eauto | discriminate].
Qed.

Ltac inv_bind H :=
  let a := fresh "a" in
  let Ha := fresh "Ha" in
  apply bind_Ok in H; destruct H as (a & Ha & H).

Tactic Notation "bind_inv" hyp(H) "as" simple_intropattern(x) simple_intropattern(Hx) :=
  apply bind_Ok in H; destruct H as (x & Hx & H).

(** ** Comparisons of binary64 values against positive constants *)

Lemma SFltb_weaken (x : spec_float) (m1 m2 : positive) (e1 e2 : Z) :
  e1 < e2 ->
  SFltb x (S754_finite false m1 e1) = true ->
  SFltb x (S754_finite false m2 e2) = true.
Proof.
  intros He. unfold SFltb.
  destruct x as [s | s | | s m e]; simpl; try (destruct s; simpl); auto.
  destruct (Z.compare_spec e e1) as [Heq | Hlt | Hgt].
  - subst e. destruct (Z.compare_spec e1 e2); auto; lia.
  - destruct (Z.compare_spec e e2); auto; lia.
  - discriminate.
Qed.

Lemma SFleb_not_ltb (x : spec_float) (m : positive) (e : Z) :
  SFleb (S754_finite false m e) x = true ->
  SFltb x (S754_finite false m e) = false.
Proof.
  unfold SFleb, SFltb.
  destruct x as [s | s | | s m' e']; simpl; try (destruct s; simpl); auto;
    try discriminate.
  change (PosDef.Pos.compare_cont Eq m m') with (Pos.compare m m').
  change (PosDef.Pos.compare_cont Eq m' m) with (Pos.compare m' m).
  rewrite (Z.compare_antisym e e'), (Pos.compare_antisym m m').
  destruct (e ?= e'); simpl; auto.
  destruct (Pos.compare m m'); simpl; auto.
Qed.

Lemma ltb_cent_unit (x : float) :
  (x <? 0.01)%float = true -> (x <? 1.0)%float = true.
Proof.
  rewrite !ltb_spec.
  change (Prim2SF 0.01) with (S754_finite false 5764607523034235 (-59)).
  change (Prim2SF 1.0) with (S754_finite false 4503599627370496 (-52)).
  apply SFltb_weaken. lia.
Qed.

Lemma ltb_cent_five (x : float) :
  (x <? 0.01)%float = true -> (x <? 5.0)%float = true.
Proof.
  rewrite !ltb_spec.
  change (Prim2SF 0.01) with (S754_finite false 5764607523034235 (-59)).
  change (Prim2SF 5.0) with (S754_finite false 5629499534213120 (-50)).
  apply SFltb_weaken. lia.
Qed.

Lemma leb_unit_not_ltb (x : float) :
  (1.0 <=? x)%float = true -> (x <? 1.0)%float = false.
Proof.
  rewrite leb_spec, ltb_spec.
  change (Prim2SF 1.0) with (S754_finite false 4503599627370496 (-52)).
  apply SFleb_not_ltb.
Qed.

Lemma not_ltb_unit_cent (x : float) :
  (x <? 1.0)%float = false -> (x <? 0.01)%float = false.
Proof.
  intros H. destruct (x <? 0.01)%float eqn:E; [|reflexivity].
  apply ltb_cent_unit in E. congruence.
Qed.

(** ** The signals of strategy 2 *)

Lemma amount_signal_fired (d : float) (st : signals) :
  amount_signal d ([], 0.0%float) = Some st ->
  exists exact, st = fired exact None false
                /\ (exact = true <-> (d <? 0.01)%float = true)
                /\ (d <? 1.0)%float = true.
Proof.
  unfold amount_signal.
  destruct (d <? 0.01)%float eqn:E1.
  - intros H; injection H as <-. exists true. repeat split; auto.
    now apply ltb_cent_unit.
  - destruct (d <? 1.0)%float eqn:E2; [|discriminate].
    intros H; injection H as <-. exists false. repeat split; auto; discriminate.
Qed.

Lemma date_signal_fired (exact : bool) (dd : Z) :
  exists day, date_signal dd (fired exact None false) = fired exact day false
              /\ (day = Some true <-> dd <= 0)
              /\ (day = Some false <-> 0 < dd <= 3).
Proof.
  unfold date_signal.
  destruct (Z.leb_spec dd 0); [|destruct (Z.leb_spec dd 3)].
  - exists (Some true). destruct exact; repeat split; auto; try lia; discriminate.
  - exists (Some false). destruct exact; repeat split; auto; try lia; discriminate.
  - exists None. destruct exact; repeat split; auto; try lia; discriminate.
Qed.

Lemma last_four_signal_fired (meta : purchase_meta) (txn : Txn.t)
  (exact : bool) (day : option bool) :
  exists l4, last_four_signal meta txn (fired exact day false) = fired exact day l4
             /\ (l4 = true -> m_last_four meta <> None).
Proof.
  unfold last_four_signal.
  destruct (m_last_four meta) as [s|].
  - destruct (negb (s =? "")%string).
    + destruct (str_in s _).
      * exists true. destruct exact, day as [[]|]; split; auto; discriminate.
      * exists false. destruct exact, day as [[]|]; split; auto; discriminate.
    + exists false. destruct exact, day as [[]|]; split; auto; discriminate.
  - exists false. destruct exact, day as [[]|]; split; auto; discriminate.
Qed.

Lemma multi_criteria_signals_inv (meta : purchase_meta) (txn : Txn.t)
  (st : signals) (d : float) :
  multi_criteria_signals meta txn = Ok (Some (st, d)) ->
  exists a rd dd exact day l4,
    reveal_amount txn = Ok a
    /\ d = abs (a - m_amount meta)%float
    /\ fromisoformat (Txn.date txn) = Ok rd
    /\ days_between rd (m_created_date meta) = Ok dd
    /\ st = fired exact day l4
    /\ (exact = true <-> (d <? 0.01)%float = true)
    /\ (d <? 1.0)%float = true
    /\ (day = Some true <-> dd <= 0)
    /\ (day = Some false <-> 0 < dd <= 3)
    /\ (l4 = true -> m_last_four meta <> None).
Proof.
  unfold multi_criteria_signals. intros H.
  inv_bind H.
  destruct (amount_signal _ _) as [st0|] eqn:Hamt; [|discriminate].
  inv_bind H. inv_bind H. injection H as <- <-.
  apply amount_signal_fired in Hamt. destruct Hamt as (exact & -> & Hex & Hclose).
  destruct (date_signal_fired exact a1) as (day & -> & Hsame & Hnear).
  destruct (last_four_signal_fired meta txn exact day) as (l4 & -> & Hl4).
  exists a, a0, a1, exact, day, l4. repeat split; auto; tauto.
Qed.

Lemma multi_criteria_signals_far (meta : purchase_meta) (txn : Txn.t) (a : float) :
  reveal_amount txn = Ok a ->
  (abs (a - m_amount meta) <? 1.0)%float = false ->
  multi_criteria_signals meta txn = Ok None.
Proof.
  intros Ha Hfar. unfold multi_criteria_signals. rewrite Ha. simpl.
  unfold amount_signal. rewrite Hfar, (not_ltb_unit_cent _ Hfar). reflexivity.
Qed.

(** The acceptance floor against the twelve signal combinations. *)
Lemma floor_fired (exact : bool) (day : option bool) (l4 : bool) :
  (0.75 <=? snd (fired exact day l4))%float = true ->
  exact = true /\ l4 = true /\ exists near, day = Some near.
Proof.
  destruct exact, day as [[]|], l4; vm_compute; intros H;
    try discriminate; repeat split; eauto.
Qed.

Lemma fired_confidence (near : bool) :
  valid_confidence (snd (fired true (Some near) true))
  /\ snd (fired true (Some near) true) <> 1.0%float
  /\ (snd (fired true (Some near) true) <=? 0.90)%float = true.
Proof.
  destruct near; (split; [|split]).
  - right; left; reflexivity.
  - intros E. apply (f_equal (fun v => (v =? 1.0)%float)) in E.
    vm_compute in E. discriminate.
  - reflexivity.
  - right; right; reflexivity.
  - intros E. apply (f_equal (fun v => (v =? 1.0)%float)) in E.
    vm_compute in E. discriminate.
  - reflexivity.
Qed.

Lemma _match_by_multiple_criteria_inv (meta : purchase_meta) (txn : Txn.t)
  (m : MatchResult) :
  _match_by_multiple_criteria meta txn = Ok (Some m) ->
  exists near d,
    multi_criteria_signals meta txn = Ok (Some (fired true (Some near) true, d))
    /\ (d <? 0.01)%float = true
    /\ skybox_id m = m_id meta
    /\ reveal_id m = Txn.id txn
    /\ confidence_score m = snd (fired true (Some near) true)
    /\ match_criteria m = fst (fired true (Some near) true).
Proof.
  unfold _match_by_multiple_criteria. intros H. inv_bind H.
  destruct a as [[[c s] d]|]; [|discriminate].
  destruct (0.75 <=? s)%float eqn:Hfloor; [|discriminate].
  injection H as <-.
  destruct (multi_criteria_signals_inv _ _ _ _ Ha)
    as (a & rd & dd & exact & day & l4 & _ & _ & _ & _ & Hst & Hex & _).
  assert (Hs : s = snd (fired exact day l4)) by (rewrite <- Hst; reflexivity).
  rewrite Hs in Hfloor.
  destruct (floor_fired _ _ _ Hfloor) as (-> & -> & near & ->).
  exists near, d. rewrite <- Hst. simpl. repeat split; auto.
  now apply Hex.
Qed.

(** ** Strategy 1 and the waterfall *)

Lemma _match_by_order_number_inv (meta : purchase_meta) (txn : Txn.t)
  (r : MatchResult) :
  _match_by_order_number meta txn = Ok (Some r) ->
  truthy (m_external_ref meta) = true
  /\ r = {| skybox_id := m_id meta;
            reveal_id := Txn.id txn;
            confidence_score := 1.0%float;
            match_criteria := ["order_number"; "amount"];
            metadata := [("order_number", MVal (m_external_ref meta));
                         ("amount_diff", MVal (PyInt 0))] |}
  /\ exists a, reveal_amount txn = Ok a
               /\ (abs (a - m_amount meta) <? 0.01)%float = true.
Proof.
  unfold _match_by_order_number.
  destruct (truthy (m_external_ref meta)); simpl; [|discriminate].
  destruct (_ || _); [|discriminate].
  intros H. inv_bind H.
  destruct (abs (a - m_amount meta) <? 0.01)%float eqn:E; [|discriminate].
  injection H as <-. eauto.
Qed.

Lemma score_candidate_inv (meta : purchase_meta) (txn : Txn.t) (r : MatchResult) :
  score_candidate meta txn = Ok (Some r) ->
  _match_by_order_number meta txn = Ok (Some r)
  \/ (_match_by_order_number meta txn = Ok None
      /\ _match_by_multiple_criteria meta txn = Ok (Some r)).
Proof.
  unfold score_candidate. intros H. inv_bind H.
  destruct a as [r1|].
  - injection H as <-. now left.
  - inv_bind H. destruct a as [r2|].
    + injection H as <-. now right.
    + discriminate.
Qed.

Lemma score_candidate_valid (meta : purchase_meta) (txn : Txn.t) (r : MatchResult) :
  score_candidate meta txn = Ok (Some r) ->
  valid_confidence (confidence_score r)
  /\ (confidence_score r = 1.0%float ->
      _match_by_order_number meta txn = Ok (Some r)
      /\ match_criteria r = ["order_number"; "amount"]).
Proof.
  intros H. destruct (score_candidate_inv _ _ _ H) as [H1 | [_ H2]].
  - destruct (_match_by_order_number_inv _ _ _ H1) as (_ & Hr & _).
    rewrite Hr; simpl. split; [now left | intros _; split; auto].
    now rewrite <- Hr.
  - destruct (_match_by_multiple_criteria_inv _ _ _ H2)
      as (near & d & _ & _ & _ & _ & Hc & _).
    rewrite Hc. destruct (fired_confidence near) as (Hv & Hne & _).
    split; [exact Hv | intros E; contradiction].
Qed.

(** ** The order of the confidences *)

Lemma valid_ltb (f g : float) :
  valid_confidence f -> valid_confidence g ->
  (f <? g)%float = (rank f <? rank g)%nat.
Proof.
  intros [-> | [-> | ->]] [-> | [-> | ->]]; reflexivity.
Qed.

Lemma valid_leb (f g : float) :
  valid_confidence f -> valid_confidence g ->
  (f <=? g)%float = (rank f <=? rank g)%nat.
Proof.
  intros [-> | [-> | ->]] [-> | [-> | ->]]; reflexivity.
Qed.

Lemma valid_floor (f : float) :
  valid_confidence f -> (0.75 <=? f)%float = true.
Proof.
  intros [-> | [-> | ->]]; reflexivity.
Qed.

Lemma rank_top (f : float) :
  valid_confidence f -> (3 <= rank f)%nat -> f = 1.0%float.
Proof.
  intros [-> | [-> | ->]]; vm_compute; intros H; auto; lia.
Qed.

Lemma rank_one : rank 1.0%float = 3%nat.
Proof. reflexivity. Qed.

(** ** The selection [max] *)

Local Abbreviation conf_rank r := (rank (confidence_score r)).

Lemma py_max_split (c : MatchResult) (cs : list MatchResult) :
  Forall (fun r => valid_confidence (confidence_score r)) (c :: cs) ->
  exists l1 l2,
    c :: cs = (l1 ++ py_max c cs :: l2)%list
    /\ Forall (fun x => (conf_rank x < conf_rank (py_max c cs))%nat) l1
    /\ Forall (fun x => (conf_rank x <= conf_rank (py_max c cs))%nat) l2.
Proof.
  unfold py_max. induction cs as [| x cs IH] using rev_ind; intros Hv.
  - exists [], []. simpl. auto.
  - assert (Hv' : Forall (fun r => valid_confidence (confidence_score r)) (c :: cs)).
    { rewrite app_comm_cons in Hv. now apply Forall_app in Hv. }
    assert (Hx : valid_confidence (confidence_score x)).
    { rewrite app_comm_cons in Hv. apply Forall_app in Hv.
      destruct Hv as [_ Hv]. now inversion Hv. }
    destruct (IH Hv') as (l1 & l2 & Heq & H1 & H2).
    rewrite fold_left_app. simpl.
    set (best := fold_left _ cs c) in *.
    assert (Hb : valid_confidence (confidence_score best)).
    { rewrite Forall_forall in Hv'. apply Hv'. rewrite Heq.
      apply in_elt. }
    rewrite (valid_ltb _ _ Hb Hx).
    destruct (Nat.ltb_spec (conf_rank best) (conf_rank x)) as [Hlt | Hge].
    + exists (c :: cs), []. split; [|split].
      * now rewrite app_comm_cons.
      * rewrite Heq. apply Forall_app. split; [|constructor].
        -- eapply Forall_impl; [|exact H1]. simpl; intros; lia.
        -- exact Hlt.
        -- eapply Forall_impl; [|exact H2]. simpl; intros; lia.
      * constructor.
    + exists l1, (l2 ++ [x])%list. split; [|split].
      * rewrite app_comm_cons, Heq, <- app_assoc. reflexivity.
      * exact H1.
      * apply Forall_app. split; [exact H2 | constructor; [exact Hge | constructor]].
Qed.

(** ** The scan of the candidate transactions *)

Lemma scan_candidates_cons (meta : purchase_meta) (txn : Txn.t)
  (rest : list Txn.t) (cands : list MatchResult) :
  scan_candidates meta (txn :: rest) = Ok cands ->
  exists r cands',
    score_candidate meta txn = Ok r
    /\ scan_candidates meta rest = Ok cands'
    /\ cands = match r with Some c => c :: cands' | None => cands' end.
Proof.
  simpl. intros H. inv_bind H. inv_bind H.
  exists a, a0. repeat split; auto. destruct a; now injection H as <-.
Qed.

Lemma scan_candidates_split (meta : purchase_meta) (txns : list Txn.t) :
  forall l1 b l2,
    scan_candidates meta txns = Ok (l1 ++ b :: l2)%list ->
    exists pre txn post,
      txns = (pre ++ txn :: post)%list
      /\ scan_candidates meta pre = Ok l1
      /\ score_candidate meta txn = Ok (Some b)
      /\ scan_candidates meta post = Ok l2.
Proof.
  induction txns as [| t rest IH]; intros l1 b l2 H.
  - simpl in H. injection H as H. now destruct l1.
  - apply scan_candidates_cons in H.
    destruct H as (r & cands' & Hr & Hrest & Heq).
    destruct r as [c|].
    + destruct l1 as [| c1 l1]; simpl in Heq; injection Heq as E1 E2; subst.
      * exists [], t, rest. simpl. auto.
      * destruct (IH _ _ _ Hrest) as (pre & txn & post & -> & Hpre & Hb & Hpost).
        exists (t :: pre), txn, post. simpl. rewrite Hr, Hpre. simpl. auto.
    + subst cands'.
      destruct (IH _ _ _ Hrest) as (pre & txn & post & -> & Hpre & Hb & Hpost).
      exists (t :: pre), txn, post. simpl. rewrite Hr, Hpre. simpl. auto.
Qed.

Lemma scan_candidates_In (meta : purchase_meta) (txns : list Txn.t) :
  forall cands txn r,
    scan_candidates meta txns = Ok cands ->
    In txn txns ->
    score_candidate meta txn = Ok (Some r) ->
    In r cands.
Proof.
  induction txns as [| t rest IH]; intros cands txn r H Hin Hr; [easy|].
  apply scan_candidates_cons in H.
  destruct H as (r0 & cands' & Hr0 & Hrest & ->).
  destruct Hin as [<- | Hin].
  - rewrite Hr in Hr0. injection Hr0 as <-. now left.
  - specialize (IH _ _ _ Hrest Hin Hr). destruct r0; simpl; auto.
Qed.

Lemma scan_candidates_origin (meta : purchase_meta) (txns : list Txn.t) :
  forall cands,
    scan_candidates meta txns = Ok cands ->
    Forall (fun r => exists txn, In txn txns
                                /\ score_candidate meta txn = Ok (Some r)) cands.
Proof.
  induction txns as [| t rest IH]; intros cands H.
  - simpl in H. injection H as <-. constructor.
  - apply scan_candidates_cons in H.
    destruct H as (r0 & cands' & Hr0 & Hrest & ->).
    assert (Hrec : Forall (fun r => exists txn, In txn (t :: rest)
                     /\ score_candidate meta txn = Ok (Some r)) cands').
    { eapply Forall_impl; [|exact (IH _ Hrest)].
      simpl. intros r (txn & Hin & Hs). eauto. }
    destruct r0 as [c|]; [constructor|]; auto.
    exists t. split; [now left | exact Hr0].
Qed.

Lemma scan_candidates_valid (meta : purchase_meta) (txns : list Txn.t)
  (cands : list MatchResult) :
  scan_candidates meta txns = Ok cands ->
  Forall (fun r => valid_confidence (confidence_score r)) cands.
Proof.
  intros H. eapply Forall_impl; [|exact (scan_candidates_origin _ _ _ H)].
  simpl. intros r (txn & _ & Hs). now apply score_candidate_valid in Hs.
Qed.

Lemma scan_candidates_total (meta : purchase_meta) (txns : list Txn.t) :
  Forall (fun txn => exists r, score_candidate meta txn = Ok r) txns ->
  exists cands, scan_candidates meta txns = Ok cands.
Proof.
  induction 1 as [| t rest (r & Hr) _ (cands & IH)]; simpl.
  - eauto.
  - rewrite Hr, IH. simpl. destruct r; eauto.
Qed.

(** ** Well-formed input never raises *)

Lemma parse_created_naive (s : string) (d : datetime) :
  parse_created s = Ok d -> tzinfo d = None.
Proof.
  unfold parse_created. intros H. inv_bind H. now injection H as <-.
Qed.

Lemma days_between_naive (a b : datetime) :
  tzinfo a = None -> tzinfo b = None ->
  days_between a b = Ok (Z.abs (td_days (wall a - wall b))).
Proof.
  unfold days_between, dt_sub. now intros -> ->.
Qed.

Lemma _extract_email_total (text : pyval) :
  exists r, _extract_email text = Ok r.
Proof.
  unfold _extract_email.
  destruct text as [| s | z]; simpl; rewrite ?orb_true_r; eauto.
  destruct (s =? "")%string; simpl; eauto.
  destruct (re_scan _ (chars s)); eauto.
Qed.

Lemma first_group_match_total (ps : list pattern) (s : string) :
  exists r, first_group_match ps (PyStr s) = Ok r.
Proof.
  induction ps as [| p ps IH]; simpl; eauto.
  destruct (re_scan p (chars s)); eauto.
Qed.

Lemma _extract_last_four_total (text : pyval) :
  exists r, _extract_last_four text = Ok r.
Proof.
  unfold _extract_last_four, truthy, isinstance_str.
  destruct text as [| s | z]; cbn [negb orb]; rewrite ?orb_true_r; eauto.
  destruct (s =? "")%string; cbn [negb orb]; eauto.
  apply first_group_match_total.
Qed.

Lemma _extract_skybox_metadata_inv (p : Purchase.t) (meta : purchase_meta) :
  _extract_skybox_metadata p = Ok meta ->
  parse_created (Purchase.createdDate p) = Ok (m_created_date meta)
  /\ tzinfo (m_created_date meta) = None
  /\ m_id meta = Purchase.id p
  /\ m_amount meta = Purchase.total p
  /\ m_external_ref meta = get (Purchase.externalRef p) PyNone
  /\ _extract_last_four (get (Purchase.internalNotes p) (PyStr ""))
     = Ok (m_last_four meta).
Proof.
  unfold _extract_skybox_metadata. intros H.
  inv_bind H. inv_bind H. inv_bind H. injection H as <-. simpl.
  repeat split; auto. eapply parse_created_naive; eauto.
Qed.

Lemma _extract_skybox_metadata_total (p : Purchase.t) (d : datetime) :
  parse_created (Purchase.createdDate p) = Ok d ->
  exists meta, _extract_skybox_metadata p = Ok meta.
Proof.
  intros Hd. unfold _extract_skybox_metadata. rewrite Hd. simpl.
  destruct (_extract_email_total (get (Purchase.internalNotes p) (PyStr "")))
    as (e & ->).
  destruct (_extract_last_four_total (get (Purchase.internalNotes p) (PyStr "")))
    as (l & ->).
  simpl. eauto.
Qed.

Lemma well_formed_scorable (meta : purchase_meta) (txn : Txn.t) :
  tzinfo (m_created_date meta) = None ->
  well_formed txn ->
  exists r, score_candidate meta txn = Ok r.
Proof.
  intros Hnaive ((a & Ha) & (d & Hd & Hdn)).
  assert (H1 : exists r1, _match_by_order_number meta txn = Ok r1).
  { unfold _match_by_order_number.
    destruct (negb _); eauto. destruct (_ || _); eauto.
    rewrite Ha. cbn [bind]. destruct (_ <? _)%float; eauto. }
  assert (H2 : exists r2, _match_by_multiple_criteria meta txn = Ok r2).
  { unfold _match_by_multiple_criteria, multi_criteria_signals.
    rewrite Ha. cbn [bind].
    destruct (amount_signal (abs (a - m_amount meta)) ([], 0.0%float))
      as [st|]; cbn [bind]; eauto.
    rewrite Hd. cbn [bind].
    rewrite (days_between_naive _ _ Hdn Hnaive). cbn [bind].
    destruct (last_four_signal meta txn _) as [c s].
    destruct (0.75 <=? s)%float; eauto. }
  destruct H1 as (r1 & H1), H2 as (r2 & H2).
  unfold score_candidate. rewrite H1. cbn [bind].
  destruct r1; eauto. rewrite H2. cbn [bind]. destruct r2; eauto.
  unfold _match_by_email_metadata. eauto.
Qed.

(** ** Selection *)

Lemma rank_le_3 (f : float) : (rank f <= 3)%nat.
Proof.
  unfold rank. destruct (f =? 1.0)%float; [lia|].
  destruct (f =? score_same_day_last_four)%float; lia.
Qed.

Lemma match_transactions_eq (p : Purchase.t) (meta : purchase_meta)
  (txns : list Txn.t) (cands : list MatchResult) :
  _extract_skybox_metadata p = Ok meta ->
  scan_candidates meta txns = Ok cands ->
  match_transactions p txns
  = Ok match cands with
       | [] => None
       | c :: cs => Some (py_max c cs)
       end.
Proof.
  intros Hm Hs. unfold match_transactions. rewrite Hm. cbn [bind].
  rewrite Hs. cbn [bind]. destruct cands as [| c cs]; [reflexivity|].
  pose proof (scan_candidates_valid _ _ _ Hs) as Hv.
  destruct (py_max_split c cs Hv) as (l1 & l2 & Heq & _).
  rewrite valid_floor; [reflexivity|].
  rewrite Forall_forall in Hv. apply Hv. rewrite Heq. apply in_elt.
Qed.

Lemma match_transactions_Ok (p : Purchase.t) (txns : list Txn.t)
  (res : option MatchResult) :
  match_transactions p txns = Ok res ->
  exists meta cands,
    _extract_skybox_metadata p = Ok meta
    /\ scan_candidates meta txns = Ok cands.
Proof.
  unfold match_transactions. intros H. inv_bind H. inv_bind H. eauto.
Qed.

(** The selected result, located in the transaction list. *)
Lemma selection_located (meta : purchase_meta) (txns : list Txn.t)
  (c : MatchResult) (cs : list MatchResult) :
  scan_candidates meta txns = Ok (c :: cs) ->
  exists pre txn post,
    txns = (pre ++ txn :: post)%list
    /\ score_candidate meta txn = Ok (Some (py_max c cs))
    /\ (forall t' m', In t' pre -> score_candidate meta t' = Ok (Some m') ->
          (confidence_score m' <? confidence_score (py_max c cs))%float = true)
    /\ (forall t' m', In t' post -> score_candidate meta t' = Ok (Some m') ->
          (confidence_score m' <=? confidence_score (py_max c cs))%float = true).
Proof.
  intros Hs. pose proof (scan_candidates_valid _ _ _ Hs) as Hv.
  destruct (py_max_split c cs Hv) as (l1 & l2 & Heq & H1 & H2).
  assert (Hb : valid_confidence (confidence_score (py_max c cs))).
  { rewrite Forall_forall in Hv. apply Hv. rewrite Heq. apply in_elt. }
  rewrite Heq in Hs.
  destruct (scan_candidates_split _ _ _ _ _ Hs)
    as (pre & txn & post & -> & Hpre & Hbest & Hpost).
  exists pre, txn, post. repeat split; auto.
  - intros t' m' Hin Hm'.
    pose proof (scan_candidates_In _ _ _ _ _ Hpre Hin Hm') as Hin1.
    rewrite Forall_forall in H1. specialize (H1 _ Hin1).
    rewrite valid_ltb; [now apply Nat.ltb_lt | | exact Hb].
    now apply score_candidate_valid in Hm'.
  - intros t' m' Hin Hm'.
    pose proof (scan_candidates_In _ _ _ _ _ Hpost Hin Hm') as Hin2.
    rewrite Forall_forall in H2. specialize (H2 _ Hin2).
    rewrite valid_leb; [now apply Nat.leb_le | | exact Hb].
    now apply score_candidate_valid in Hm'.
Qed.

(** A result of confidence 1.0 among the candidates is what gets selected. *)
Lemma selection_top (meta : purchase_meta) (txns : list Txn.t)
  (cands : list MatchResult) (r : MatchResult) :
  scan_candidates meta txns = Ok cands ->
  In r cands ->
  confidence_score r = 1.0%float ->
  exists c cs, cands = c :: cs
    /\ confidence_score (py_max c cs) = 1.0%float
    /\ match_criteria (py_max c cs) = ["order_number"; "amount"].
Proof.
  intros Hs Hin Hr. destruct cands as [| c cs]; [easy|].
  exists c, cs. split; [reflexivity|].
  pose proof (scan_candidates_valid _ _ _ Hs) as Hv.
  destruct (py_max_split c cs Hv) as (l1 & l2 & Heq & H1 & H2).
  assert (Hbin : In (py_max c cs) (c :: cs)) by (rewrite Heq; apply in_elt).
  assert (Hb : valid_confidence (confidence_score (py_max c cs))).
  { rewrite Forall_forall in Hv. now apply Hv. }
  assert (Htop : confidence_score (py_max c cs) = 1.0%float).
  { apply rank_top; [exact Hb|].
    rewrite Heq in Hin. apply in_app_or in Hin.
    rewrite Forall_forall in H1, H2.
    destruct Hin as [Hin | [<- | Hin]].
    - specialize (H1 _ Hin). rewrite Hr, rank_one in H1.
      pose proof (rank_le_3 (confidence_score (py_max c cs))). lia.
    - rewrite Hr, rank_one. lia.
    - specialize (H2 _ Hin). rewrite Hr, rank_one in H2. exact H2. }
  split; [exact Htop|].
  pose proof (scan_candidates_origin _ _ _ Hs) as Ho.
  rewrite Forall_forall in Ho. destruct (Ho _ Hbin) as (t' & _ & Hsc).
  apply score_candidate_valid in Hsc. now apply Hsc.
Qed.

(** ** The claims *)

(** C1. For a purchase with a non-empty external reference and a transaction
    whose description or extended description contains that reference and
    whose amount, divided by 100, is within 0.01 of the purchase total, the
    order-number strategy returns a result of confidence exactly 1.0 with
    criteria [order_number, amount]; selecting over any candidate list that
    contains such a transaction yields a match of confidence 1.0 whose
    criteria contain order_number: whenever the selection returns at all, and
    it does return when every candidate is well formed. *)
Theorem order_number_match_selected (p : Purchase.t) (meta : purchase_meta)
  (txn : Txn.t) (a : float) :
  _extract_skybox_metadata p = Ok meta ->
  truthy (get (Purchase.externalRef p) PyNone) = true ->
  mentions (get (Purchase.externalRef p) PyNone) txn ->
  reveal_amount txn = Ok a ->
  (abs (a - Purchase.total p) <? 0.01)%float = true ->
  (exists r,
      _match_by_order_number meta txn = Ok (Some r)
      /\ confidence_score r = 1.0%float
      /\ match_criteria r = ["order_number"; "amount"]
      /\ skybox_id r = Purchase.id p
      /\ reveal_id r = Txn.id txn)
  /\ forall txns,
      In txn txns ->
      (forall res,
          match_transactions p txns = Ok res ->
          exists m, res = Some m
                    /\ confidence_score m = 1.0%float
                    /\ In "order_number" (match_criteria m))
      /\ (Forall well_formed txns ->
          exists m, match_transactions p txns = Ok (Some m)
                    /\ confidence_score m = 1.0%float
                    /\ In "order_number" (match_criteria m)).
Proof.
  intros Hmeta Href Hin Ha Hamt.
  destruct (_extract_skybox_metadata_inv _ _ Hmeta)
    as (_ & Hnaive & Hid & Htot & Hext & _).
  assert (H1 : _match_by_order_number meta txn
               = Ok (Some {| skybox_id := m_id meta;
                             reveal_id := Txn.id txn;
                             confidence_score := 1.0%float;
                             match_criteria := ["order_number"; "amount"];
                             metadata := [("order_number", MVal (m_external_ref meta));
                                          ("amount_diff", MVal (PyInt 0))] |})).
  { unfold _match_by_order_number. rewrite Hext, Href. cbn [negb].
    replace (_ || _) with true
      by (symmetry; apply orb_true_iff; exact Hin).
    rewrite Ha. cbn [bind]. rewrite Htot, Hamt. reflexivity. }
  set (r := {| skybox_id := m_id meta |}) in H1.
  assert (Hsc : score_candidate meta txn = Ok (Some r)).
  { unfold score_candidate. rewrite H1. reflexivity. }
  split.
  - exists r. repeat split; auto.
  - intros txns Htxn.
    assert (Hsel : forall cands, scan_candidates meta txns = Ok cands ->
              exists m, match_transactions p txns = Ok (Some m)
                        /\ confidence_score m = 1.0%float
                        /\ In "order_number" (match_criteria m)).
    { intros cands Hs.
      pose proof (scan_candidates_In _ _ _ _ _ Hs Htxn Hsc) as Hrin.
      destruct (selection_top _ _ _ r Hs Hrin eq_refl) as (c & cs & -> & Hc & Hcr).
      exists (py_max c cs). rewrite (match_transactions_eq _ _ _ _ Hmeta Hs).
      repeat split; auto. rewrite Hcr. now left. }
    split.
    + intros res Hres.
      destruct (match_transactions_Ok _ _ _ Hres) as (meta' & cands & Hm' & Hs).
      rewrite Hmeta in Hm'. injection Hm' as <-.
      destruct (Hsel _ Hs) as (m & Hm & Hc & Hcr).
      rewrite Hm in Hres. injection Hres as <-. eauto.
    + intros Hwf.
      destruct (scan_candidates_total meta txns) as (cands & Hs).
      { eapply Forall_impl; [|exact Hwf].
        intros t' Ht'. now apply well_formed_scorable. }
      eauto.
Qed.

(** C2. When the difference between abs(amount)/100 and the purchase total is
    at least 1.00, the scorer returns no result for the pair: the order-number
    strategy cannot match (it needs the amount within 0.01), the
    multi-criteria strategy rejects on the amount alone, before the date is
    read, and the email strategy never matches. *)
Theorem far_amount_never_matches (meta : purchase_meta) (txn : Txn.t) (a : float) :
  reveal_amount txn = Ok a ->
  (1.0 <=? abs (a - m_amount meta))%float = true ->
  _match_by_order_number meta txn = Ok None
  /\ multi_criteria_signals meta txn = Ok None
  /\ _match_by_multiple_criteria meta txn = Ok None
  /\ (forall meta' txn', _match_by_email_metadata meta' txn' = Ok None)
  /\ score_candidate meta txn = Ok None.
Proof.
  intros Ha Hfar. apply leb_unit_not_ltb in Hfar.
  pose proof (not_ltb_unit_cent _ Hfar) as Hcent.
  assert (H1 : _match_by_order_number meta txn = Ok None).
  { unfold _match_by_order_number.
    destruct (negb _); [reflexivity|]. destruct (_ || _); [|reflexivity].
    rewrite Ha. cbn [bind]. now rewrite Hcent. }
  pose proof (multi_criteria_signals_far _ _ _ Ha Hfar) as H2.
  assert (H3 : _match_by_multiple_criteria meta txn = Ok None).
  { unfold _match_by_multiple_criteria. now rewrite H2. }
  repeat split; auto.
  unfold score_candidate. rewrite H1. cbn [bind]. rewrite H3. reflexivity.
Qed.

(** C10. Selection has a first-occurrence tie-break: when no candidate raises
    and at least one yields a result, [match_transactions] returns the result
    of a transaction such that every result of an earlier transaction has a
    strictly smaller confidence and every result of a later one a smaller or
    equal confidence; the returned confidence is at least 0.75. *)
Theorem match_transactions_first_best (p : Purchase.t) (meta : purchase_meta)
  (txns : list Txn.t) :
  _extract_skybox_metadata p = Ok meta ->
  Forall (fun txn => exists r, score_candidate meta txn = Ok r) txns ->
  (exists txn r, In txn txns /\ score_candidate meta txn = Ok (Some r)) ->
  exists m pre txn post,
    match_transactions p txns = Ok (Some m)
    /\ txns = (pre ++ txn :: post)%list
    /\ score_candidate meta txn = Ok (Some m)
    /\ (0.75 <=? confidence_score m)%float = true
    /\ (forall t' m', In t' pre -> score_candidate meta t' = Ok (Some m') ->
          (confidence_score m' <? confidence_score m)%float = true)
    /\ (forall t' m', In t' post -> score_candidate meta t' = Ok (Some m') ->
          (confidence_score m' <=? confidence_score m)%float = true).
Proof.
  intros Hmeta Hall (txn0 & r0 & Hin0 & Hr0).
  destruct (scan_candidates_total _ _ Hall) as (cands & Hs).
  pose proof (scan_candidates_In _ _ _ _ _ Hs Hin0 Hr0) as Hrin.
  destruct cands as [| c cs]; [easy|].
  destruct (selection_located _ _ _ _ Hs) as (pre & txn & post & Heq & Hb & Hlt & Hle).
  exists (py_max c cs), pre, txn, post.
  rewrite (match_transactions_eq _ _ _ _ Hmeta Hs).
  repeat split; auto.
  apply valid_floor. now apply score_candidate_valid in Hb.
Qed.

(** ** Monotonicity of the weighted score *)

Lemma inclb_spec (c c' : list string) : inclb c c' = true <-> incl c c'.
Proof.
  unfold inclb, incl. rewrite forallb_forall. split; intros H x Hx.
  - specialize (H x Hx). apply existsb_exists in H.
    destruct H as (y & Hy & E). apply String.eqb_eq in E. now subst.
  - apply existsb_exists. exists x. split; [auto | apply String.eqb_refl].
Qed.

Lemma fired_monotone (e : bool) (d : option bool) (l e' : bool)
  (d' : option bool) (l' : bool) :
  inclb ["amount_exact"] (fst (fired e d l)) = true ->
  inclb (fst (fired e d l)) (fst (fired e' d' l')) = true ->
  inclb (fst (fired e' d' l')) (fst (fired e d l)) = false ->
  (snd (fired e d l) <? snd (fired e' d' l'))%float = true.
Proof.
  destruct e, d as [[]|], l, e', d' as [[]|], l'; vm_compute; easy.
Qed.

Lemma fired_capped (e : bool) (d : option bool) (l : bool) :
  (snd (fired e d l) <=? 0.90)%float = true.
Proof.
  destruct e, d as [[]|], l; reflexivity.
Qed.

Lemma fired_criteria_inj (e : bool) (d : option bool) (l e' : bool)
  (d' : option bool) (l' : bool) :
  fst (fired e d l) = fst (fired e' d' l') -> fired e d l = fired e' d' l'.
Proof.
  destruct e, d as [[]|], l, e', d' as [[]|], l'; simpl; intros H;
    try reflexivity; discriminate.
Qed.

Lemma fired_criteria_inj_day (near e : bool) (d : option bool) (l : bool) :
  fired true (Some near) true = fired e d l -> d = Some near.
Proof.
  destruct near, e, d as [[]|], l; simpl; intros H; try reflexivity;
    discriminate.
Qed.

Lemma _match_by_multiple_criteria_eq (meta : purchase_meta) (txn : Txn.t)
  (st : signals) (d : float) :
  multi_criteria_signals meta txn = Ok (Some (st, d)) ->
  _match_by_multiple_criteria meta txn
  = if (0.75 <=? snd st)%float then
      Ok (Some {| skybox_id := m_id meta;
                  reveal_id := Txn.id txn;
                  confidence_score := snd st;
                  match_criteria := fst st;
                  metadata := [("amount_diff", MFloat d);
                               ("is_automated", MBool (m_is_automated meta))] |})
    else Ok None.
Proof.
  intros H. unfold _match_by_multiple_criteria. rewrite H. cbn [bind].
  now destruct st.
Qed.

Lemma exact_amount_pair_signals (meta : purchase_meta) (txn : Txn.t) (dd : Z) :
  exact_amount_pair meta txn dd ->
  exists d,
    multi_criteria_signals meta txn
    = Ok (Some (fired true (date_qualifies dd) (last_four_qualifies meta txn), d)).
Proof.
  intros (a & rd & Ha & Hamt & Hrd & Hdd).
  exists (abs (a - m_amount meta))%float.
  unfold multi_criteria_signals. rewrite Ha. cbn [bind].
  unfold amount_signal. rewrite Hamt, Hrd. cbn [bind]. rewrite Hdd. cbn [bind].
  unfold date_signal, date_qualifies, last_four_signal, last_four_qualifies.
  destruct (dd <=? 0); [|destruct (dd <=? 3)];
    (destruct (m_last_four meta) as [l4|]; [|reflexivity];
     destruct (l4 =? "")%string; cbn [negb andb]; [reflexivity|];
     destruct (str_in l4 _); reflexivity).
Qed.

(** C4. The weighted score of strategy 2 is monotonic and capped.  For a
    purchase and a transaction with an exact amount, the signals that fire are
    exactly those the pair qualifies for.  Between two such pairs, when the
    second qualifies for everything the first does (the same date signal, or
    a date signal where the first has none; the last-4 signal if the first
    has it) and for at least one signal more, its score is strictly greater.
    The score never exceeds 0.90.  An exact amount on the same day without a
    matching last-4 scores exactly 0.70 and is rejected; with a matching
    last-4 it scores the binary64 sum 0.70 + 0.20, which is above 0.70 and the
    floor 0.75 and below 0.90, and is accepted.  A result of strategy 2 never
    has confidence 1.0, so a candidate of confidence exactly 1.0 comes from
    the order-number strategy. *)
Theorem multi_criteria_monotone_capped :
  (forall meta txn dd,
      exact_amount_pair meta txn dd ->
      exists d,
        multi_criteria_signals meta txn
        = Ok (Some (fired true (date_qualifies dd)
                          (last_four_qualifies meta txn), d)))
  /\ (forall meta txn dd meta' txn' dd',
        exact_amount_pair meta txn dd ->
        exact_amount_pair meta' txn' dd' ->
        (date_qualifies dd = None \/ date_qualifies dd' = date_qualifies dd) ->
        (last_four_qualifies meta txn = true ->
         last_four_qualifies meta' txn' = true) ->
        (date_qualifies dd' <> date_qualifies dd
         \/ last_four_qualifies meta' txn' <> last_four_qualifies meta txn) ->
        exists st d st' d',
          multi_criteria_signals meta txn = Ok (Some (st, d))
          /\ multi_criteria_signals meta' txn' = Ok (Some (st', d'))
          /\ (snd st <? snd st')%float = true)
  /\ (forall meta txn st d,
        multi_criteria_signals meta txn = Ok (Some (st, d)) ->
        (snd st <=? 0.90)%float = true)
  /\ (forall meta txn dd,
        exact_amount_pair meta txn dd ->
        dd <= 0 ->
        last_four_qualifies meta txn = false ->
        (exists d,
            multi_criteria_signals meta txn
            = Ok (Some ((["amount_exact"; "date_same_day"], 0.70%float), d)))
        /\ _match_by_multiple_criteria meta txn = Ok None)
  /\ (forall meta txn dd,
        exact_amount_pair meta txn dd ->
        dd <= 0 ->
        last_four_qualifies meta txn = true ->
        (exists d,
            multi_criteria_signals meta txn
            = Ok (Some ((["amount_exact"; "date_same_day"; "last_four"],
                         (0.70 + 0.20)%float), d)))
        /\ (0.70 <? 0.70 + 0.20)%float = true
        /\ (0.75 <=? 0.70 + 0.20)%float = true
        /\ (0.70 + 0.20 <? 0.90)%float = true
        /\ exists m, _match_by_multiple_criteria meta txn = Ok (Some m)
                     /\ confidence_score m = (0.70 + 0.20)%float
                     /\ match_criteria m
                        = ["amount_exact"; "date_same_day"; "last_four"])
  /\ (forall meta txn m,
        _match_by_multiple_criteria meta txn = Ok (Some m) ->
        confidence_score m <> 1.0%float
        /\ (confidence_score m <=? 0.90)%float = true)
  /\ (forall meta txn m,
        score_candidate meta txn = Ok (Some m) ->
        confidence_score m = 1.0%float ->
        _match_by_order_number meta txn = Ok (Some m)).
Proof.
  repeat apply conj.
  - exact exact_amount_pair_signals.
  - intros meta txn dd meta' txn' dd' H H' Hday Hl4 Hmore.
    destruct (exact_amount_pair_signals _ _ _ H) as (d & Hs).
    destruct (exact_amount_pair_signals _ _ _ H') as (d' & Hs').
    exists (fired true (date_qualifies dd) (last_four_qualifies meta txn)), d,
      (fired true (date_qualifies dd') (last_four_qualifies meta' txn')), d'.
    split; [exact Hs|]. split; [exact Hs'|].
    destruct (date_qualifies dd) as [[]|], (date_qualifies dd') as [[]|],
      (last_four_qualifies meta txn), (last_four_qualifies meta' txn');
      try reflexivity; exfalso;
      solve [ destruct Hday; discriminate
            | discriminate (Hl4 eq_refl)
            | destruct Hmore as [Hm | Hm]; apply Hm; reflexivity ].
  - intros meta txn st d H.
    destruct (multi_criteria_signals_inv _ _ _ _ H)
      as (_ & _ & _ & e & dy & l & _ & _ & _ & _ & -> & _).
    apply fired_capped.
  - intros meta txn dd H Hdd Hl4.
    destruct (exact_amount_pair_signals _ _ _ H) as (d & Hs).
    rewrite Hl4 in Hs. unfold date_qualifies in Hs.
    apply Z.leb_le in Hdd. rewrite Hdd in Hs.
    split; [exists d; exact Hs|].
    now rewrite (_match_by_multiple_criteria_eq _ _ _ _ Hs).
  - intros meta txn dd H Hdd Hl4.
    destruct (exact_amount_pair_signals _ _ _ H) as (d & Hs).
    rewrite Hl4 in Hs. unfold date_qualifies in Hs.
    apply Z.leb_le in Hdd. rewrite Hdd in Hs.
    split; [exists d; exact Hs|].
    repeat (split; [reflexivity|]).
    rewrite (_match_by_multiple_criteria_eq _ _ _ _ Hs).
    eexists. repeat split; reflexivity.
  - intros meta txn m H.
    destruct (_match_by_multiple_criteria_inv _ _ _ H)
      as (near & d & _ & _ & _ & _ & -> & _).
    destruct (fired_confidence near) as (_ & Hne & Hcap). auto.
  - intros meta txn m H Hc. apply score_candidate_valid in H. now apply H.
Qed.

(** ** The candidate filter *)

Lemma filter_loop_In (amount : float) (created : datetime) (txns : list Txn.t) :
  forall cands txn a rd dd,
    filter_loop amount created txns = Ok cands ->
    In txn txns ->
    reveal_amount txn = Ok a ->
    (abs (a - amount) <? 5.0)%float = true ->
    fromisoformat (Txn.date txn) = Ok rd ->
    days_between rd created = Ok dd ->
    dd <= 7 ->
    In txn cands.
Proof.
  induction txns as [| t rest IH]; intros cands txn a rd dd H Hin Ha Hamt Hd Hdd H7;
    [easy|].
  simpl in H.
  bind_inv H as ta Hta. bind_inv H as td Htd.
  bind_inv H as tdd Htdd. bind_inv H as rest' Hrest.
  destruct Hin as [<- | Hin].
  - rewrite Ha in Hta. injection Hta as <-.
    rewrite Hd in Htd. injection Htd as <-.
    rewrite Hdd in Htdd. injection Htdd as <-.
    rewrite Hamt in H. replace (dd <=? 7) with true in H
      by (symmetry; now apply Z.leb_le).
    injection H as <-. now left.
  - specialize (IH _ _ _ _ _ Hrest Hin Ha Hamt Hd Hdd H7).
    destruct (_ && _); injection H as <-; auto. now right.
Qed.

Lemma filter_loop_incl (amount : float) (created : datetime) (txns : list Txn.t) :
  forall cands, filter_loop amount created txns = Ok cands -> incl cands txns.
Proof.
  induction txns as [| t rest IH]; intros cands H.
  - injection H as <-. easy.
  - simpl in H.
    bind_inv H as ta Hta. bind_inv H as td Htd.
    bind_inv H as tdd Htdd. bind_inv H as rest' Hrest.
    specialize (IH _ Hrest).
    destruct (_ && _); injection H as <-.
    + intros x [<- | Hx]; [now left | right; auto].
    + intros x Hx. right; auto.
Qed.

Lemma filter_loop_total (amount : float) (created : datetime) (txns : list Txn.t) :
  tzinfo created = None ->
  Forall well_formed txns ->
  exists cands, filter_loop amount created txns = Ok cands.
Proof.
  intros Hn. induction 1 as [| t rest ((a & Ha) & (d & Hd & Hdn)) _ (cands & IH)].
  - simpl. eauto.
  - simpl. rewrite Ha. cbn [bind]. rewrite Hd. cbn [bind].
    rewrite (days_between_naive _ _ Hdn Hn). cbn [bind].
    rewrite IH. cbn [bind]. destruct (_ && _); eauto.
Qed.

(** C5. The candidate filter is a superset of the acceptance of strategy 2:
    a transaction the multi-criteria strategy accepts satisfies the inclusion
    rule (amount within 5.00 and at most 7 days apart), so the filter keeps
    it whenever it is in the pool; and the filter returns on every pool of
    well-formed transactions. *)
Theorem filter_keeps_accepted (p : Purchase.t) (meta : purchase_meta)
  (txn : Txn.t) (m : MatchResult) :
  _extract_skybox_metadata p = Ok meta ->
  _match_by_multiple_criteria meta txn = Ok (Some m) ->
  (exists a created rd dd,
      reveal_amount txn = Ok a
      /\ (abs (a - Purchase.total p) <? 5.0)%float = true
      /\ parse_created (Purchase.createdDate p) = Ok created
      /\ fromisoformat (Txn.date txn) = Ok rd
      /\ days_between rd created = Ok dd
      /\ dd <= 7)
  /\ (forall pool cands,
        _filter_candidate_transactions p pool = Ok cands ->
        In txn pool -> In txn cands)
  /\ (forall pool,
        Forall well_formed pool ->
        exists cands, _filter_candidate_transactions p pool = Ok cands).
Proof.
  intros Hmeta Hacc.
  destruct (_extract_skybox_metadata_inv _ _ Hmeta)
    as (Hcreated & Hnaive & _ & Htot & _).
  destruct (_match_by_multiple_criteria_inv _ _ _ Hacc)
    as (near & d & Hsig & Hcent & _).
  destruct (multi_criteria_signals_inv _ _ _ _ Hsig)
    as (a & rd & dd & e & dy & l & Ha & Hd & Hrd & Hdd & Hst & _ & _ & Hsame & Hnear & _).
  apply fired_criteria_inj_day in Hst.
  assert (H7 : dd <= 7).
  { destruct near; [apply Hsame in Hst | apply Hnear in Hst]; lia. }
  assert (H5 : (abs (a - Purchase.total p) <? 5.0)%float = true).
  { rewrite <- Htot, <- Hd. now apply ltb_cent_five. }
  split; [|split].
  - exists a, (m_created_date meta), rd, dd. repeat split; auto.
  - intros pool cands Hf Hin. unfold _filter_candidate_transactions in Hf.
    rewrite Hcreated in Hf. cbn [bind] in Hf.
    eapply filter_loop_In; eauto.
  - intros pool Hwf. unfold _filter_candidate_transactions.
    rewrite Hcreated. cbn [bind]. now apply filter_loop_total.
Qed.

(** ** Batch matching *)

Lemma score_candidate_ids (meta : purchase_meta) (txn : Txn.t) (r : MatchResult) :
  score_candidate meta txn = Ok (Some r) ->
  skybox_id r = m_id meta /\ reveal_id r = Txn.id txn.
Proof.
  intros H. destruct (score_candidate_inv _ _ _ H) as [H1 | [_ H2]].
  - destruct (_match_by_order_number_inv _ _ _ H1) as (_ & -> & _). auto.
  - destruct (_match_by_multiple_criteria_inv _ _ _ H2)
      as (_ & _ & _ & _ & Hs & Hr & _). auto.
Qed.

Lemma match_transactions_id (p : Purchase.t) (txns : list Txn.t) (m : MatchResult) :
  match_transactions p txns = Ok (Some m) ->
  skybox_id m = Purchase.id p.
Proof.
  intros H. destruct (match_transactions_Ok _ _ _ H) as (meta & cands & Hm & Hs).
  rewrite (match_transactions_eq _ _ _ _ Hm Hs) in H.
  destruct cands as [| c cs]; [discriminate|]. injection H as <-.
  pose proof (scan_candidates_valid _ _ _ Hs) as Hv.
  destruct (py_max_split c cs Hv) as (l1 & l2 & Heq & _).
  pose proof (scan_candidates_origin _ _ _ Hs) as Ho.
  rewrite Forall_forall in Ho.
  destruct (Ho (py_max c cs)) as (t & _ & Hsc); [rewrite Heq; apply in_elt|].
  apply score_candidate_ids in Hsc. destruct Hsc as [-> _].
  now destruct (_extract_skybox_metadata_inv _ _ Hm) as (_ & _ & -> & _).
Qed.

Lemma match_transactions_total (p : Purchase.t) (txns : list Txn.t) (d : datetime) :
  parse_created (Purchase.createdDate p) = Ok d ->
  Forall well_formed txns ->
  exists r, match_transactions p txns = Ok r.
Proof.
  intros Hd Hwf.
  destruct (_extract_skybox_metadata_total _ _ Hd) as (meta & Hm).
  destruct (_extract_skybox_metadata_inv _ _ Hm) as (_ & Hn & _).
  destruct (scan_candidates_total meta txns) as (cands & Hs).
  { eapply Forall_impl; [|exact Hwf]. intros t Ht. now apply well_formed_scorable. }
  rewrite (match_transactions_eq _ _ _ _ Hm Hs). eauto.
Qed.

Lemma insert_by_created_perm (x : Purchase.t) (l : list Purchase.t) :
  Permutation (insert_by_created x l) (x :: l).
Proof.
  induction l as [| y l IH]; simpl; [reflexivity|].
  destruct (_ <? _)%string; [|reflexivity].
  rewrite IH. apply perm_swap.
Qed.

Lemma sorted_by_created_perm (l : list Purchase.t) :
  Permutation (sorted_by_created l) l.
Proof.
  induction l as [| x l IH]; simpl; [reflexivity|].
  rewrite insert_by_created_perm. now constructor.
Qed.

Lemma batch_loop_partition (txns : list Txn.t) (ps : list Purchase.t) :
  forall matched unmatched,
    batch_loop ps txns = Ok (matched, unmatched) ->
    exists matched_from,
      map Purchase.id matched_from = map skybox_id matched
      /\ Permutation (matched_from ++ unmatched) ps
      /\ (List.length matched + List.length unmatched = List.length ps)%nat.
Proof.
  induction ps as [| p ps IH]; intros matched unmatched H.
  - injection H as <- <-. exists []. simpl. auto.
  - simpl in H.
    bind_inv H as cands Hc. bind_inv H as res Hres. bind_inv H as r Hr.
    destruct r as [matched' unmatched'].
    destruct (IH _ _ Hr) as (from' & Hids & Hperm & Hlen).
    destruct res as [m|]; injection H as <- <-.
    + exists (p :: from'). simpl. rewrite Hids, (match_transactions_id _ _ _ Hres).
      split; [reflexivity | split; [now constructor | lia]].
    + exists from'. split; [exact Hids | split].
      * rewrite <- Hperm. symmetry. apply Permutation_middle.
      * simpl. lia.
Qed.

Lemma batch_loop_total (txns : list Txn.t) (ps : list Purchase.t) :
  Forall (fun p => exists d, parse_created (Purchase.createdDate p) = Ok d) ps ->
  Forall well_formed txns ->
  exists r, batch_loop ps txns = Ok r.
Proof.
  intros Hps Hwf. induction Hps as [| p ps (d & Hd) _ (r & IH)]; simpl; [eauto|].
  unfold _filter_candidate_transactions. rewrite Hd. cbn [bind].
  destruct (filter_loop_total (Purchase.total p) d txns) as (cands & Hc); auto.
  { eapply parse_created_naive; eauto. }
  rewrite Hc. cbn [bind].
  destruct (match_transactions_total p cands d Hd) as (res & Hres).
  { rewrite Forall_forall in *. intros t Ht.
    apply Hwf. eapply filter_loop_incl; eauto. }
  rewrite Hres, IH. cbn [bind]. destruct r, res; eauto.
Qed.

(** C6. Batch matching partitions the purchases: whenever it returns, the
    two output lists together are as long as the input, and the purchases
    are, as a multiset, those that produced a match result (one result each,
    carrying the purchase id) followed by those returned unmatched, so each
    purchase is in exactly one of the two; the service's [_batch_match]
    computes the same; and it does return when every creation date reads and
    every transaction is well formed. *)
Theorem batch_partitions_purchases (purchases : list Purchase.t)
  (txns : list Txn.t) :
  (forall matched unmatched,
      batch_match_transactions purchases txns = Ok (matched, unmatched) ->
      len matched + len unmatched = len purchases
      /\ exists matched_from,
          map Purchase.id matched_from = map skybox_id matched
          /\ Permutation (matched_from ++ unmatched) purchases)
  /\ _batch_match purchases txns = batch_match_transactions purchases txns
  /\ (Forall (fun p => exists d, parse_created (Purchase.createdDate p) = Ok d)
             purchases ->
      Forall well_formed txns ->
      exists matched unmatched,
        batch_match_transactions purchases txns = Ok (matched, unmatched)).
Proof.
  split; [|split].
  - intros matched unmatched H. unfold batch_match_transactions in H.
    destruct (batch_loop_partition _ _ _ _ H) as (from & Hids & Hperm & Hlen).
    split.
    + unfold len. rewrite <- Nat2Z.inj_add, Hlen.
      now rewrite (Permutation_length (sorted_by_created_perm purchases)).
    + exists from. split; [exact Hids|].
      rewrite Hperm. apply sorted_by_created_perm.
  - reflexivity.
  - intros Hps Hwf. unfold batch_match_transactions.
    destruct (batch_loop_total txns (sorted_by_created purchases)) as ([m u] & H);
      eauto.
    eapply Permutation_Forall; [|exact Hps].
    symmetry. apply sorted_by_created_perm.
Qed.

(** ** The orchestrator *)

(** C7 (as amended). When a fetch collaborator raises, [reconcile_transactions]
    returns a report instead of raising: the message is the only entry of
    [errors], no match is listed, and matches found, matches updated,
    unmatched purchases and total transactions are zero; total purchases is
    zero when the purchase fetch raised, and the number of purchases fetched
    when only the transaction fetch raised. *)
Theorem fetch_failure_recorded (now : string) (e : exn) :
  (forall fetch_transactions,
      reconcile_transactions now (Ok tt) (Raise e) fetch_transactions
      = {| timestamp := now;
           total_purchases := 0;
           total_transactions := 0;
           matches_found := 0;
           matches_updated := 0;
           unmatched_purchases := 0;
           errors := [exn_str e];
           matches := [] |})
  /\ (forall purchases,
        reconcile_transactions now (Ok tt) (Ok purchases) (Raise e)
        = {| timestamp := now;
             total_purchases := len purchases;
             total_transactions := 0;
             matches_found := 0;
             matches_updated := 0;
             unmatched_purchases := 0;
             errors := [exn_str e];
             matches := [] |}).
Proof.
  split; intros; reflexivity.
Qed.

(** C8. A run over zero purchases: the success rate logged on line 135
    divides by the purchase count, so the run ends in the exception handler
    and reports the error "division by zero"; the guarded rate of
    [_generate_summary] is 0 on that report. *)
Theorem zero_purchases_division_error (now : string) (txns : list Txn.t) :
  reconcile_transactions now (Ok tt) (Ok []) (Ok txns)
  = {| timestamp := now;
       total_purchases := 0;
       total_transactions := len txns;
       matches_found := 0;
       matches_updated := 0;
       unmatched_purchases := 0;
       errors := ["division by zero"];
       matches := [] |}
  /\ (forall r, total_purchases r = 0 ->
                logged_success_rate r
                = Raise (ZeroDivisionError "division by zero"))
  /\ summary_success_rate
       (reconcile_transactions now (Ok tt) (Ok []) (Ok txns)) = Ok 0%float.
Proof.
  split; [reflexivity | split; [|reflexivity]].
  intros r Hr. unfold logged_success_rate. rewrite Hr. reflexivity.
Qed.

(** ** Free-text extraction *)

Lemma last_four_signal_none (meta : purchase_meta) (txn : Txn.t) (st : signals) :
  last_four_signal (set_last_four meta None) txn st = st.
Proof.
  unfold last_four_signal. now destruct st.
Qed.

Lemma fired_inj (e : bool) (d : option bool) (l e' : bool)
  (d' : option bool) (l' : bool) :
  fired e d l = fired e' d' l' -> e = e' /\ d = d' /\ l = l'.
Proof.
  destruct e, d as [[]|], l, e', d' as [[]|], l'; simpl; intros H;
    try discriminate; auto.
Qed.

(** C9. The extraction helpers are total: on every value they return a text
    or no value, never an exception, and on [None], the empty text and
    non-text values they return no value.  Notes never make the metadata
    extraction raise, and a purchase without an extractable last-4 is scored
    like the same purchase with one, with the same amount and date signals
    and only the last-4 signal missing. *)
Theorem extraction_helpers_total :
  (forall text, exists r, _extract_email text = Ok r)
  /\ (forall text, exists r, _extract_last_four text = Ok r)
  /\ (forall text,
        text = PyNone \/ text = PyStr "" \/ (exists z, text = PyInt z) ->
        _extract_email text = Ok None /\ _extract_last_four text = Ok None)
  /\ (forall p created,
        parse_created (Purchase.createdDate p) = Ok created ->
        exists meta, _extract_skybox_metadata p = Ok meta)
  /\ (forall meta txn,
        m_last_four meta = None ->
        forall st d, multi_criteria_signals meta txn = Ok (Some (st, d)) ->
                     ~ In "last_four" (fst st))
  /\ (forall meta txn st d,
        multi_criteria_signals meta txn = Ok (Some (st, d)) ->
        exists exact day l4,
          st = fired exact day l4
          /\ multi_criteria_signals (set_last_four meta None) txn
             = Ok (Some (fired exact day false, d)))
  /\ (forall meta txn,
        multi_criteria_signals meta txn = Ok None ->
        multi_criteria_signals (set_last_four meta None) txn = Ok None).
Proof.
  repeat apply conj.
  - apply _extract_email_total.
  - apply _extract_last_four_total.
  - intros text [-> | [-> | (z & ->)]]; split; try reflexivity;
      unfold _extract_email, _extract_last_four, truthy, isinstance_str;
      cbn [negb]; now rewrite orb_true_r.
  - intros p created. apply _extract_skybox_metadata_total.
  - intros meta txn Hnone st d H.
    destruct (multi_criteria_signals_inv _ _ _ _ H)
      as (_ & _ & _ & e & dy & l & _ & _ & _ & _ & -> & _ & _ & _ & _ & Hl).
    destruct l; [now apply Hl in Hnone|].
    destruct e, dy as [[]|]; simpl; intuition discriminate.
  - intros meta txn st d H.
    destruct (multi_criteria_signals_inv _ _ _ _ H)
      as (a & rd & dd & e & dy & l & Ha & Hd & Hrd & Hdd & Hst & _).
    exists e, dy, l. split; [exact Hst|].
    unfold multi_criteria_signals in *. simpl m_amount. simpl m_created_date.
    rewrite Ha in *. cbn [bind] in *. rewrite <- Hd in *.
    destruct (amount_signal d ([], 0.0%float)) as [st0|] eqn:Hamt; [|discriminate].
    rewrite Hrd in *. cbn [bind] in *. rewrite Hdd in *. cbn [bind] in *.
    rewrite last_four_signal_none.
    injection H as H. rewrite Hst in H.
    destruct (amount_signal_fired _ _ Hamt) as (e0 & -> & _).
    destruct (date_signal_fired e0 dd) as (dy0 & Hds & _).
    rewrite Hds in *.
    destruct (last_four_signal_fired meta txn e0 dy0) as (l0 & Hl0 & _).
    rewrite Hl0 in H. apply fired_inj in H. destruct H as (-> & -> & _).
    reflexivity.
  - intros meta txn H. unfold multi_criteria_signals in *.
    simpl m_amount. simpl m_created_date.
    destruct (reveal_amount txn) as [a|]; [|discriminate]. cbn [bind] in *.
    destruct (amount_signal _ _) as [st0|]; [|reflexivity].
    destruct (fromisoformat _) as [rd|]; [|discriminate]. cbn [bind] in *.
    destruct (days_between _ _) as [dd|]; discriminate.
Qed.

(** ** The floor at an exact amount on the same day *)

Lemma same_calendar_day_diff (a b : datetime) :
  tzinfo a = None -> tzinfo b = None ->
  calendar_day a = calendar_day b ->
  days_between a b = Ok 0 \/ days_between a b = Ok 1.
Proof.
  intros Ha Hb. rewrite (days_between_naive _ _ Ha Hb).
  unfold calendar_day, td_days, us_per_day. intros E.
  assert (H : (wall a - wall b) / 86400000000 = 0
              \/ (wall a - wall b) / 86400000000 = -1).
  { Z.div_mod_to_equations. lia. }
  destruct H as [-> | ->]; auto.
Qed.

(** An exact amount without reference and without last-4, at any day
    difference: the signals are the amount and the date signal, and nothing
    is matched. *)
Lemma exact_amount_alone_unmatched (p : Purchase.t) (meta : purchase_meta)
  (txn : Txn.t) (a : float) (rd : datetime) (dd : Z) :
  _extract_skybox_metadata p = Ok meta ->
  truthy (get (Purchase.externalRef p) PyNone) = false ->
  reveal_amount txn = Ok a ->
  (abs (a - Purchase.total p) <? 0.01)%float = true ->
  fromisoformat (Txn.date txn) = Ok rd ->
  days_between rd (m_created_date meta) = Ok dd ->
  m_last_four meta = None ->
  multi_criteria_signals meta txn
  = Ok (Some (date_signal dd (["amount_exact"], (0.0 + 0.40)%float),
              abs (a - Purchase.total p)%float))
  /\ _match_by_multiple_criteria meta txn = Ok None
  /\ score_candidate meta txn = Ok None
  /\ match_transactions p [txn] = Ok None.
Proof.
  intros Hmeta Href Ha Hamt Hrd Hdd Hl4.
  destruct (_extract_skybox_metadata_inv _ _ Hmeta) as (_ & _ & _ & Htot & Hext & _).
  assert (Hsig : multi_criteria_signals meta txn
                 = Ok (Some (date_signal dd (["amount_exact"], (0.0 + 0.40)%float),
                             abs (a - Purchase.total p)%float))).
  { unfold multi_criteria_signals. rewrite Ha. cbn [bind]. rewrite Htot.
    unfold amount_signal. rewrite Hamt. rewrite Hrd. cbn [bind].
    rewrite Hdd. cbn [bind]. unfold last_four_signal.
    rewrite Hl4. now destruct (date_signal dd _). }
  assert (Hmc : _match_by_multiple_criteria meta txn = Ok None).
  { rewrite (_match_by_multiple_criteria_eq _ _ _ _ Hsig).
    unfold date_signal. destruct (dd <=? 0); [reflexivity|].
    destruct (dd <=? 3); reflexivity. }
  assert (Hsc : score_candidate meta txn = Ok None).
  { unfold score_candidate, _match_by_order_number.
    rewrite Hext, Href. cbn [negb bind]. now rewrite Hmc. }
  repeat split; auto.
  rewrite (match_transactions_eq p meta [txn] []); auto.
  simpl. now rewrite Hsc.
Qed.

(** X1. With an exact amount, no external reference and no extractable
    last-4, a day difference of 0 scores exactly 0.70 (amount_exact,
    date_same_day), under the floor 0.75: nothing is matched. *)
Theorem exact_amount_day_zero_below_floor (p : Purchase.t) (meta : purchase_meta)
  (txn : Txn.t) (a : float) (rd : datetime) :
  _extract_skybox_metadata p = Ok meta ->
  truthy (get (Purchase.externalRef p) PyNone) = false ->
  reveal_amount txn = Ok a ->
  (abs (a - Purchase.total p) <? 0.01)%float = true ->
  fromisoformat (Txn.date txn) = Ok rd ->
  days_between rd (m_created_date meta) = Ok 0 ->
  m_last_four meta = None ->
  multi_criteria_signals meta txn
  = Ok (Some ((["amount_exact"; "date_same_day"], 0.70%float),
              abs (a - Purchase.total p)%float))
  /\ (0.75 <=? 0.70)%float = false
  /\ _match_by_multiple_criteria meta txn = Ok None
  /\ score_candidate meta txn = Ok None
  /\ match_transactions p [txn] = Ok None.
Proof.
  intros Hmeta Href Ha Hamt Hrd Hdd Hl4.
  destruct (exact_amount_alone_unmatched _ _ _ _ _ _
              Hmeta Href Ha Hamt Hrd Hdd Hl4) as (Hsig & Hmc & Hsc & Hm).
  repeat split; auto.
Qed.

Lemma same_calendar_day_diff_order (a b : datetime) :
  tzinfo a = None -> tzinfo b = None ->
  calendar_day a = calendar_day b ->
  days_between a b = Ok (if wall b <=? wall a then 0 else 1).
Proof.
  intros Ha Hb. rewrite (days_between_naive _ _ Ha Hb).
  unfold calendar_day, td_days, us_per_day. intros E.
  destruct (wall b <=? wall a) eqn:Hle.
  - apply Z.leb_le in Hle.
    replace ((wall a - wall b) / 86400000000) with 0; [reflexivity|].
    Z.div_mod_to_equations. lia.
  - apply Z.leb_gt in Hle.
    replace ((wall a - wall b) / 86400000000) with (-1); [reflexivity|].
    Z.div_mod_to_equations. lia.
Qed.

(** X2. On the same calendar day, the signal depends on the time of day: a
    transaction timestamp at or after the purchase's creation scores 0.70
    (amount_exact, date_same_day); an earlier one has a day difference of 1
    and scores 0.40 + 0.20 (amount_exact, date_within_3_days).  In both cases
    nothing is matched. *)
Theorem exact_amount_same_calendar_day_unmatched (p : Purchase.t)
  (meta : purchase_meta) (txn : Txn.t) (a : float) (rd : datetime) :
  _extract_skybox_metadata p = Ok meta ->
  truthy (get (Purchase.externalRef p) PyNone) = false ->
  reveal_amount txn = Ok a ->
  (abs (a - Purchase.total p) <? 0.01)%float = true ->
  fromisoformat (Txn.date txn) = Ok rd ->
  tzinfo rd = None ->
  calendar_day rd = calendar_day (m_created_date meta) ->
  m_last_four meta = None ->
  multi_criteria_signals meta txn
  = Ok (Some (if wall (m_created_date meta) <=? wall rd
              then (["amount_exact"; "date_same_day"], 0.70%float)
              else (["amount_exact"; "date_within_3_days"],
                    (0.0 + 0.40 + 0.20)%float),
              abs (a - Purchase.total p)%float))
  /\ match_transactions p [txn] = Ok None.
Proof.
  intros Hmeta Href Ha Hamt Hrd Hn Hday Hl4.
  destruct (_extract_skybox_metadata_inv _ _ Hmeta) as (_ & Hcn & _).
  pose proof (same_calendar_day_diff_order _ _ Hn Hcn Hday) as Hdd.
  destruct (exact_amount_alone_unmatched _ _ _ _ _ _
              Hmeta Href Ha Hamt Hrd Hdd Hl4) as (Hsig & _ & _ & Hm).
  split; [|exact Hm]. rewrite Hsig.
  destruct (wall (m_created_date meta) <=? wall rd); reflexivity.
Qed.

(** * Further properties of the engine *)

(** ** What a returned match means *)

Lemma _match_by_order_number_mentions (meta : purchase_meta) (txn : Txn.t)
  (r : MatchResult) :
  _match_by_order_number meta txn = Ok (Some r) ->
  mentions (m_external_ref meta) txn.
Proof.
  unfold _match_by_order_number, mentions.
  destruct (negb _); [discriminate|].
  destruct (str_in _ _ || str_in _ _) eqn:E; [|discriminate].
  intros _. now apply orb_true_iff.
Qed.

Lemma last_four_signal_inv (meta : purchase_meta) (txn : Txn.t)
  (e : bool) (d : option bool) (e' : bool) (d' : option bool) :
  last_four_signal meta txn (fired e d false) = fired e' d' true ->
  exists l4,
    m_last_four meta = Some l4
    /\ l4 <> ""
    /\ str_in l4 (py_str (py_or (get (Txn.last_four txn) PyNone)
                                (get (Txn.sub_account txn) (PyStr "")))) = true.
Proof.
  unfold last_four_signal.
  destruct (fired e d false) as [c s] eqn:F.
  destruct (m_last_four meta) as [l4|].
  - destruct (l4 =? "")%string eqn:El; cbn [negb].
    + rewrite <- F. intros H. apply fired_inj in H. now destruct H as (_ & _ & H).
    + destruct (str_in l4 _) eqn:Es.
      * intros _. exists l4. repeat split; auto.
        now apply String.eqb_neq.
      * rewrite <- F. intros H. apply fired_inj in H. now destruct H as (_ & _ & H).
  - rewrite <- F. intros H. apply fired_inj in H. now destruct H as (_ & _ & H).
Qed.

Lemma multi_criteria_signals_last_four (meta : purchase_meta) (txn : Txn.t)
  (e : bool) (d : option bool) (diff : float) :
  multi_criteria_signals meta txn = Ok (Some (fired e d true, diff)) ->
  exists l4,
    m_last_four meta = Some l4
    /\ l4 <> ""
    /\ str_in l4 (py_str (py_or (get (Txn.last_four txn) PyNone)
                                (get (Txn.sub_account txn) (PyStr "")))) = true.
Proof.
  unfold multi_criteria_signals. intros H.
  bind_inv H as a Ha.
  destruct (amount_signal _ _) as [st0|] eqn:Hamt; [|discriminate].
  bind_inv H as rd Hrd. bind_inv H as dd Hdd. injection H as H _.
  apply amount_signal_fired in Hamt. destruct Hamt as (e0 & -> & _).
  destruct (date_signal_fired e0 dd) as (d0 & Hds & _).
  rewrite Hds in H. eapply last_four_signal_inv; eauto.
Qed.

(** A result of the scorer, read back: the amount is within 0.01 in every
    case; then either the reference is mentioned, or the card digits of the
    notes occur in the account text and the day difference is at most 3. *)
Lemma score_candidate_sound (meta : purchase_meta) (txn : Txn.t) (m : MatchResult) :
  score_candidate meta txn = Ok (Some m) ->
  skybox_id m = m_id meta
  /\ reveal_id m = Txn.id txn
  /\ (exists a, reveal_amount txn = Ok a
                /\ (abs (a - m_amount meta) <? 0.01)%float = true)
  /\ ((confidence_score m = 1.0%float
       /\ match_criteria m = ["order_number"; "amount"]
       /\ truthy (m_external_ref meta) = true
       /\ mentions (m_external_ref meta) txn)
      \/ (exists l4 rd dd,
            m_last_four meta = Some l4
            /\ l4 <> ""
            /\ str_in l4 (py_str (py_or (get (Txn.last_four txn) PyNone)
                                        (get (Txn.sub_account txn) (PyStr ""))))
               = true
            /\ fromisoformat (Txn.date txn) = Ok rd
            /\ days_between rd (m_created_date meta) = Ok dd
            /\ ((dd <= 0
                 /\ match_criteria m = ["amount_exact"; "date_same_day"; "last_four"]
                 /\ confidence_score m = (0.70 + 0.20)%float)
                \/ (0 < dd <= 3
                    /\ match_criteria m
                       = ["amount_exact"; "date_within_3_days"; "last_four"]
                    /\ confidence_score m = (0.0 + 0.40 + 0.20 + 0.20)%float)))).
Proof.
  intros H. destruct (score_candidate_ids _ _ _ H) as (Hs & Hr).
  split; [exact Hs | split; [exact Hr|]].
  destruct (score_candidate_inv _ _ _ H) as [H1 | [_ H2]].
  - pose proof (_match_by_order_number_mentions _ _ _ H1) as Hm.
    destruct (_match_by_order_number_inv _ _ _ H1) as (Ht & -> & Ha).
    split; [exact Ha|]. left. simpl. auto.
  - destruct (_match_by_multiple_criteria_inv _ _ _ H2)
      as (near & d & Hsig & Hcent & _ & _ & Hc & Hcr).
    destruct (multi_criteria_signals_last_four _ _ _ _ _ Hsig)
      as (l4 & Hl4 & Hne & Hin).
    destruct (multi_criteria_signals_inv _ _ _ _ Hsig)
      as (a & rd & dd & e & dy & l & Ha & Hd & Hrd & Hdd & Hst & _ & _ & Hsame & Hnear & _).
    apply fired_criteria_inj_day in Hst.
    split; [exists a; split; [exact Ha | now rewrite <- Hd]|].
    right. exists l4, rd, dd. repeat split; auto.
    destruct near.
    + left. apply Hsame in Hst. rewrite Hc, Hcr. repeat split; auto.
    + right. apply Hnear in Hst. rewrite Hc, Hcr. repeat split; auto; lia.
Qed.

Lemma match_transactions_origin (p : Purchase.t) (txns : list Txn.t)
  (m : MatchResult) :
  match_transactions p txns = Ok (Some m) ->
  exists meta txn,
    _extract_skybox_metadata p = Ok meta
    /\ In txn txns
    /\ score_candidate meta txn = Ok (Some m).
Proof.
  intros H. destruct (match_transactions_Ok _ _ _ H) as (meta & cands & Hm & Hs).
  rewrite (match_transactions_eq _ _ _ _ Hm Hs) in H.
  destruct cands as [| c cs]; [discriminate|]. injection H as <-.
  pose proof (scan_candidates_valid _ _ _ Hs) as Hv.
  destruct (py_max_split c cs Hv) as (l1 & l2 & Heq & _).
  pose proof (scan_candidates_origin _ _ _ Hs) as Ho.
  rewrite Forall_forall in Ho.
  destruct (Ho (py_max c cs)) as (t & Hin & Hsc); [rewrite Heq; apply in_elt|].
  eauto.
Qed.

(** X3. Every match [match_transactions] returns is justified by a
    transaction of the list: the result carries the purchase id and that
    transaction's id, the transaction amount is within 0.01 of the total,
    and either the result is an order-number match (confidence 1.0, the
    reference is non-empty and occurs in a description), or the card digits
    extracted from the notes occur in the transaction's account text and the
    day difference is at most 3.  A close amount (0.01 to 1.00 away) is
    never enough. *)
Theorem match_is_justified (p : Purchase.t) (txns : list Txn.t) (m : MatchResult) :
  match_transactions p txns = Ok (Some m) ->
  exists txn a created,
    In txn txns
    /\ skybox_id m = Purchase.id p
    /\ reveal_id m = Txn.id txn
    /\ reveal_amount txn = Ok a
    /\ (abs (a - Purchase.total p) <? 0.01)%float = true
    /\ parse_created (Purchase.createdDate p) = Ok created
    /\ ((confidence_score m = 1.0%float
         /\ match_criteria m = ["order_number"; "amount"]
         /\ truthy (get (Purchase.externalRef p) PyNone) = true
         /\ mentions (get (Purchase.externalRef p) PyNone) txn)
        \/ (exists l4 rd dd,
              _extract_last_four (get (Purchase.internalNotes p) (PyStr ""))
              = Ok (Some l4)
              /\ str_in l4 (py_str (py_or (get (Txn.last_four txn) PyNone)
                                          (get (Txn.sub_account txn) (PyStr ""))))
                 = true
              /\ fromisoformat (Txn.date txn) = Ok rd
              /\ days_between rd created = Ok dd
              /\ ((dd <= 0
                   /\ match_criteria m
                      = ["amount_exact"; "date_same_day"; "last_four"]
                   /\ confidence_score m = (0.70 + 0.20)%float)
                  \/ (0 < dd <= 3
                      /\ match_criteria m
                         = ["amount_exact"; "date_within_3_days"; "last_four"]
                      /\ confidence_score m = (0.0 + 0.40 + 0.20 + 0.20)%float)))).
Proof.
  intros H.
  destruct (match_transactions_origin _ _ _ H) as (meta & txn & Hmeta & Hin & Hsc).
  destruct (_extract_skybox_metadata_inv _ _ Hmeta)
    as (Hcreated & _ & Hid & Htot & Hext & Hl4).
  destruct (score_candidate_sound _ _ _ Hsc) as (Hs & Hr & (a & Ha & Hamt) & Hcase).
  exists txn, a, (m_created_date meta).
  rewrite <- Hid, <- Htot, <- Hext. repeat split; auto.
  destruct Hcase as [Hord | (l4 & rd & dd & Hm4 & _ & Hstr & Hrd & Hdd & Hday)].
  - left. exact Hord.
  - right. exists l4, rd, dd. rewrite Hl4, Hm4. repeat split; auto.
Qed.

(** X4. A purchase with no usable external reference and no card digits in
    its notes is never matched, whatever the transactions are: strategy 2
    cannot reach the floor without the last-4 signal. *)
Theorem no_reference_no_card_never_matches (p : Purchase.t) (txns : list Txn.t) :
  truthy (get (Purchase.externalRef p) PyNone) = false ->
  _extract_last_four (get (Purchase.internalNotes p) (PyStr "")) = Ok None ->
  forall m, match_transactions p txns <> Ok (Some m).
Proof.
  intros Href Hnotes m H.
  destruct (match_transactions_origin _ _ _ H) as (meta & txn & Hmeta & Hin & Hsc).
  destruct (_extract_skybox_metadata_inv _ _ Hmeta)
    as (_ & _ & _ & _ & Hext & Hl4).
  destruct (score_candidate_sound _ _ _ Hsc) as (_ & _ & _ & Hcase).
  destruct Hcase as [(_ & _ & Ht & _) | (l4 & rd & dd & Hm4 & _)].
  - rewrite Hext, Href in Ht. discriminate.
  - rewrite Hnotes in Hl4. injection Hl4 as Hl4. rewrite <- Hl4 in Hm4. discriminate.
Qed.

(** ** The candidate filter, exactly *)

Lemma filter_loop_filter (amount : float) (created : datetime) (pool : list Txn.t) :
  forall cands,
    filter_loop amount created pool = Ok cands ->
    cands = filter (keeps amount created) pool.
Proof.
  induction pool as [| t rest IH]; intros cands H.
  - injection H as <-. reflexivity.
  - simpl in H.
    bind_inv H as ta Hta. bind_inv H as td Htd.
    bind_inv H as tdd Htdd. bind_inv H as rest' Hrest.
    simpl. unfold keeps at 1. rewrite Hta, Htd, Htdd.
    rewrite <- (IH _ Hrest).
    destruct (_ && _); now injection H as <-.
Qed.

Lemma keeps_spec (amount : float) (created : datetime) (txn : Txn.t) :
  keeps amount created txn = true <->
  exists a rd dd,
    reveal_amount txn = Ok a
    /\ fromisoformat (Txn.date txn) = Ok rd
    /\ days_between rd created = Ok dd
    /\ (abs (a - amount) <? 5.0)%float = true
    /\ dd <= 7.
Proof.
  unfold keeps. split.
  - destruct (reveal_amount txn) as [a|] eqn:Ea; [|discriminate].
    destruct (fromisoformat (Txn.date txn)) as [rd|] eqn:Er; [|discriminate].
    destruct (days_between rd created) as [dd|] eqn:Ed; [|discriminate].
    intros H. apply andb_true_iff in H. destruct H as [H1 H2].
    exists a, rd, dd.
    split; [reflexivity | split; [reflexivity | split; [exact Ed|]]].
    split; [exact H1 | now apply Z.leb_le].
  - intros (a & rd & dd & -> & -> & -> & H1 & H2).
    apply andb_true_iff. split; [exact H1 | now apply Z.leb_le].
Qed.

(** X5. When the candidate filter returns, its result is the pool restricted
    to the transactions that satisfy the inclusion rule, in the order and
    with the multiplicity of the pool: a transaction is kept exactly when its
    amount is within 5.00 of the total and its day difference to the
    creation date is at most 7. *)
Theorem candidate_filter_exact (p : Purchase.t) (pool cands : list Txn.t) :
  _filter_candidate_transactions p pool = Ok cands ->
  exists created,
    parse_created (Purchase.createdDate p) = Ok created
    /\ cands = filter (keeps (Purchase.total p) created) pool
    /\ forall txn,
        In txn cands <->
        In txn pool
        /\ exists a rd dd,
            reveal_amount txn = Ok a
            /\ fromisoformat (Txn.date txn) = Ok rd
            /\ days_between rd created = Ok dd
            /\ (abs (a - Purchase.total p) <? 5.0)%float = true
            /\ dd <= 7.
Proof.
  unfold _filter_candidate_transactions. intros H.
  bind_inv H as created Hc. exists created.
  apply filter_loop_filter in H. subst cands.
  split; [exact Hc | split; [reflexivity|]].
  intros txn. rewrite filter_In, keeps_spec. reflexivity.
Qed.

(** ** One date that cannot be used aborts the run *)

Lemma filter_loop_raises (amount : float) (created : datetime)
  (pre : list Txn.t) (bad : Txn.t) (post : list Txn.t) (a : float) (e : exn) :
  tzinfo created = None ->
  Forall well_formed pre ->
  reveal_amount bad = Ok a ->
  date_fails bad e ->
  filter_loop amount created (pre ++ bad :: post) = Raise e.
Proof.
  intros Hn Hpre Ha Hbad.
  induction Hpre as [| t rest ((ta & Hta) & (td & Htd & Htn)) _ IH]; simpl.
  - rewrite Ha. cbn [bind].
    destruct Hbad as [-> | (d & off & -> & Hoff & ->)]; [reflexivity|].
    cbn [bind]. unfold days_between, dt_sub. now rewrite Hoff, Hn.
  - rewrite Hta. cbn [bind]. rewrite Htd. cbn [bind].
    rewrite (days_between_naive _ _ Htn Hn). cbn [bind].
    now rewrite IH.
Qed.

Lemma sorted_by_created_nonempty (purchases : list Purchase.t) :
  purchases <> [] -> exists p rest, sorted_by_created purchases = p :: rest.
Proof.
  intros Hne. destruct (sorted_by_created purchases) as [| p rest] eqn:E; eauto.
  pose proof (Permutation_length (sorted_by_created_perm purchases)) as Hl.
  rewrite E in Hl. destruct purchases; [contradiction | discriminate].
Qed.

(** X6. A single transaction whose date cannot be used aborts the whole run.
    When the pool holds a transaction whose date does not read, or reads
    with a UTC offset, after well-formed ones, the filter raises for the
    first purchase already, so the batch raises and [reconcile_transactions]
    reports that one error with both totals and no match, however far that
    transaction is from every purchase. *)
Theorem unusable_date_aborts_run (now : string) (purchases : list Purchase.t)
  (pre : list Txn.t) (bad : Txn.t) (post : list Txn.t) (a : float) (e : exn) :
  purchases <> [] ->
  Forall (fun p => exists d, parse_created (Purchase.createdDate p) = Ok d)
         purchases ->
  Forall well_formed pre ->
  reveal_amount bad = Ok a ->
  date_fails bad e ->
  batch_match_transactions purchases (pre ++ bad :: post) = Raise e
  /\ reconcile_transactions now (Ok tt) (Ok purchases)
       (Ok (pre ++ bad :: post)%list)
     = {| timestamp := now;
          total_purchases := len purchases;
          total_transactions := len (pre ++ bad :: post)%list;
          matches_found := 0;
          matches_updated := 0;
          unmatched_purchases := 0;
          errors := [exn_str e];
          matches := [] |}.
Proof.
  intros Hne Hps Hpre Ha Hbad.
  assert (Hb : batch_match_transactions purchases (pre ++ bad :: post) = Raise e).
  { unfold batch_match_transactions.
    destruct (sorted_by_created_nonempty _ Hne) as (p & rest & Hs).
    assert (Hp : exists d, parse_created (Purchase.createdDate p) = Ok d).
    { rewrite Forall_forall in Hps. apply Hps.
      apply (Permutation_in p (sorted_by_created_perm purchases)).
      rewrite Hs. now left. }
    destruct Hp as (d & Hd).
    rewrite Hs. simpl. unfold _filter_candidate_transactions.
    rewrite Hd. cbn [bind].
    rewrite (filter_loop_raises _ _ _ _ _ _ _ (parse_created_naive _ _ Hd) Hpre Ha Hbad).
    reflexivity. }
  split; [exact Hb|].
  unfold reconcile_transactions, _batch_match.
  unfold batch_match_transactions in Hb. rewrite Hb. reflexivity.
Qed.

(** ** A purchase is decided alone *)

Lemma batch_loop_In (txns : list Txn.t) (ps : list Purchase.t) :
  forall matched unmatched p,
    batch_loop ps txns = Ok (matched, unmatched) ->
    In p ps ->
    exists cands res,
      _filter_candidate_transactions p txns = Ok cands
      /\ match_transactions p cands = Ok res
      /\ match res with
         | Some m => In m matched
         | None => In p unmatched
         end.
Proof.
  induction ps as [| q ps IH]; intros matched unmatched p H Hin; [easy|].
  simpl in H.
  bind_inv H as cands Hc. bind_inv H as res Hres. bind_inv H as r Hr.
  destruct r as [matched' unmatched'].
  destruct Hin as [<- | Hin].
  - exists cands, res. repeat split; auto.
    destruct res; injection H as <- <-; now left.
  - destruct (IH _ _ _ Hr Hin) as (cands' & res' & Hc' & Hres' & Hout).
    exists cands', res'. repeat split; auto.
    destruct res, res'; injection H as <- <-; simpl; auto.
Qed.

(** X7. In a batch every purchase is decided on its own, against the whole
    pool: when the batch returns, a purchase of the input is matched in it
    exactly as it is when it is the only purchase, with the same result, and
    is unmatched in it exactly when it is unmatched alone.  Transactions are
    not consumed by earlier purchases. *)
Theorem batch_decides_each_purchase_alone (purchases : list Purchase.t)
  (txns : list Txn.t) (matched : list MatchResult) (unmatched : list Purchase.t)
  (p : Purchase.t) :
  batch_match_transactions purchases txns = Ok (matched, unmatched) ->
  In p purchases ->
  (exists m, batch_match_transactions [p] txns = Ok ([m], []) /\ In m matched)
  \/ (batch_match_transactions [p] txns = Ok ([], [p]) /\ In p unmatched).
Proof.
  unfold batch_match_transactions. intros H Hin.
  apply (Permutation_in p (Permutation_sym (sorted_by_created_perm purchases)))
    in Hin.
  destruct (batch_loop_In _ _ _ _ _ H Hin) as (cands & res & Hc & Hres & Hout).
  simpl. rewrite Hc. cbn [bind]. rewrite Hres. cbn [bind].
  destruct res as [m|]; [left; exists m | right]; auto.
Qed.

(** ** The order of the outputs *)

Lemma string_compare_refl (s : string) : (s ?= s)%string = Eq.
Proof.
  induction s as [| a s IH]; simpl; [reflexivity|].
  unfold Ascii.compare. now rewrite N.compare_refl.
Qed.

Lemma string_compare_trans (c : comparison) (s1 : string) :
  forall s2 s3,
    (s1 ?= s2)%string = c -> (s2 ?= s3)%string = c -> (s1 ?= s3)%string = c.
Proof.
  induction s1 as [| a1 s1 IH]; intros [| a2 s2] [| a3 s3]; simpl;
    try congruence.
  unfold Ascii.compare.
  destruct (N.compare_spec (N_of_ascii a1) (N_of_ascii a2)) as [E12 | L12 | G12];
    destruct (N.compare_spec (N_of_ascii a2) (N_of_ascii a3)) as [E23 | L23 | G23];
    intros H1 H2; subst; try congruence.
  - rewrite E12, E23, N.compare_refl. eauto.
  - rewrite E12. now apply N.compare_lt_iff in L23 as ->.
  - rewrite E12. now apply N.compare_gt_iff in G23 as ->.
  - rewrite <- E23. now apply N.compare_lt_iff in L12 as ->.
  - assert (L : (N_of_ascii a1 < N_of_ascii a3)%N) by lia.
    now apply N.compare_lt_iff in L as ->.
  - rewrite <- E23. now apply N.compare_gt_iff in G12 as ->.
  - assert (L : (N_of_ascii a3 < N_of_ascii a1)%N) by lia.
    now apply N.compare_gt_iff in L as ->.
Qed.

Lemma string_leb_trans (s1 s2 s3 : string) :
  (s1 <=? s2)%string = true -> (s2 <=? s3)%string = true ->
  (s1 <=? s3)%string = true.
Proof.
  unfold String.leb.
  destruct (s1 ?= s2)%string eqn:E12; try discriminate;
    destruct (s2 ?= s3)%string eqn:E23; try discriminate; intros _ _.
  - now rewrite (string_compare_trans Eq _ _ _ E12 E23).
  - apply String.compare_eq_iff in E12. subst. now rewrite E23.
  - apply String.compare_eq_iff in E23. subst. now rewrite E12.
  - now rewrite (string_compare_trans Lt _ _ _ E12 E23).
Qed.

Lemma string_ltb_leb (s1 s2 : string) :
  (s1 <? s2)%string = true -> (s1 <=? s2)%string = true.
Proof.
  unfold String.ltb, String.leb. now destruct (s1 ?= s2)%string.
Qed.

Lemma string_not_ltb_leb (s1 s2 : string) :
  (s1 <? s2)%string = false -> (s2 <=? s1)%string = true.
Proof.
  unfold String.ltb, String.leb. rewrite (String.compare_antisym s1 s2).
  now destruct (s2 ?= s1)%string.
Qed.

Lemma created_leb_trans (x y z : Purchase.t) :
  created_leb x y -> created_leb y z -> created_leb x z.
Proof. apply string_leb_trans. Qed.

Lemma insert_by_created_sorted (x : Purchase.t) (l : list Purchase.t) :
  StronglySorted created_leb l ->
  StronglySorted created_leb (insert_by_created x l).
Proof.
  induction 1 as [| y l Hs IH Hall]; simpl.
  - repeat constructor.
  - destruct (Purchase.createdDate y <? Purchase.createdDate x)%string eqn:E.
    + constructor; [exact IH|].
      apply (Permutation_Forall (Permutation_sym (insert_by_created_perm x l))).
      constructor; [now apply string_ltb_leb | exact Hall].
    + apply string_not_ltb_leb in E.
      constructor; [now constructor|].
      constructor; [exact E|].
      eapply Forall_impl; [|exact Hall].
      intros z Hz. eapply created_leb_trans; eauto.
Qed.

Lemma sorted_by_created_sorted (l : list Purchase.t) :
  StronglySorted created_leb (sorted_by_created l).
Proof.
  induction l as [| x l IH]; simpl; [constructor|].
  now apply insert_by_created_sorted.
Qed.

Lemma batch_loop_sorted (txns : list Txn.t) (ps : list Purchase.t) :
  StronglySorted created_leb ps ->
  forall matched unmatched,
    batch_loop ps txns = Ok (matched, unmatched) ->
    exists matched_from,
      map Purchase.id matched_from = map skybox_id matched
      /\ incl matched_from ps
      /\ incl unmatched ps
      /\ StronglySorted created_leb matched_from
      /\ StronglySorted created_leb unmatched.
Proof.
  induction 1 as [| p ps Hs IH Hall]; intros matched unmatched H.
  - injection H as <- <-. exists []. repeat split; auto using incl_nil_l; constructor.
  - simpl in H.
    bind_inv H as cands Hc. bind_inv H as res Hres. bind_inv H as r Hr.
    destruct r as [matched' unmatched'].
    destruct (IH _ _ Hr) as (from' & Hids & Hif & Hiu & Hsf & Hsu).
    rewrite Forall_forall in Hall.
    destruct res as [m|]; injection H as <- <-.
    + exists (p :: from'). simpl.
      rewrite Hids, (match_transactions_id _ _ _ Hres).
      repeat split; auto.
      * intros x [<- | Hx]; [now left | right; auto].
      * intros x Hx. right; auto.
      * constructor; [exact Hsf|]. apply Forall_forall. auto.
    + exists from'. repeat split; auto.
      * intros x Hx. right; auto.
      * intros x [<- | Hx]; [now left | right; auto].
      * constructor; [exact Hsu|]. apply Forall_forall. auto.
Qed.

(** X8. The batch works through the purchases in ascending order of their
    creation text (the order of the strings, not of the instants they
    denote): when it returns, the unmatched purchases are listed in that
    order, and so are the match results, taken with the purchases they come
    from. *)
Theorem batch_outputs_in_creation_order (purchases : list Purchase.t)
  (txns : list Txn.t) (matched : list MatchResult) (unmatched : list Purchase.t) :
  batch_match_transactions purchases txns = Ok (matched, unmatched) ->
  StronglySorted created_leb (sorted_by_created purchases)
  /\ StronglySorted created_leb unmatched
  /\ exists matched_from,
      map Purchase.id matched_from = map skybox_id matched
      /\ incl matched_from purchases
      /\ StronglySorted created_leb matched_from.
Proof.
  unfold batch_match_transactions. intros H.
  pose proof (sorted_by_created_sorted purchases) as Hs.
  destruct (batch_loop_sorted _ _ Hs _ _ H) as (from & Hids & Hif & _ & Hsf & Hsu).
  repeat split; auto. exists from. repeat split; auto.
  intros x Hx. apply (Permutation_in x (sorted_by_created_perm purchases)). auto.
Qed.

(** ** The report of a run, in every outcome *)

Lemma py_truediv_zero (a : Z) (q : float) : py_truediv a 0 <> Ok q.
Proof. unfold py_truediv. simpl. discriminate. Qed.

Lemma _batch_match_lengths (purchases : list Purchase.t) (txns : list Txn.t)
  (matched : list MatchResult) (unmatched : list Purchase.t) :
  _batch_match purchases txns = Ok (matched, unmatched) ->
  len matched + len unmatched = len purchases.
Proof.
  unfold _batch_match. intros H.
  destruct (batch_loop_partition _ _ _ _ H) as (from & _ & _ & Hlen).
  unfold len. rewrite <- Nat2Z.inj_add, Hlen.
  now rewrite (Permutation_length (sorted_by_created_perm purchases)).
Qed.

(** X9. Whatever the debugger and the two fetches do, the report of
    [reconcile_transactions] carries the clock reading, counts zero updated
    matches (the update step is disabled), has [matches_found] equal to the
    number of listed matches and holds at most one error.  A report without
    error comes from a run in which both fetches succeeded on at least one
    purchase, and then matched and unmatched purchases add up to the total;
    a report with an error counts no unmatched purchase. *)
Theorem reconcile_report_invariants (now : string) (debugger : result unit)
  (fetch_p : result (list Purchase.t)) (fetch_t : result (list Txn.t)) :
  let r := reconcile_transactions now debugger fetch_p fetch_t in
  timestamp r = now
  /\ matches_updated r = 0
  /\ matches_found r = len (matches r)
  /\ (List.length (errors r) <= 1)%nat
  /\ (errors r = [] ->
      exists purchases txns matched unmatched,
        debugger = Ok tt
        /\ fetch_p = Ok purchases
        /\ fetch_t = Ok txns
        /\ purchases <> []
        /\ _batch_match purchases txns = Ok (matched, unmatched)
        /\ total_purchases r = len purchases
        /\ total_transactions r = len txns
        /\ unmatched_purchases r = len unmatched
        /\ matches r = map to_match_dict matched
        /\ matches_found r + unmatched_purchases r = total_purchases r)
  /\ (errors r <> [] -> unmatched_purchases r = 0).
Proof.
  cbv zeta. unfold reconcile_transactions.
  destruct debugger as [[] | e];
    [| repeat split; simpl; auto; discriminate].
  destruct fetch_p as [purchases | e];
    [| repeat split; simpl; auto; discriminate].
  destruct fetch_t as [txns | e];
    [| repeat split; simpl; auto; discriminate].
  destruct (_batch_match purchases txns) as [[matched unmatched] | e] eqn:Hb;
    [| repeat split; simpl; auto; discriminate].
  destruct (logged_success_rate _) as [q | e] eqn:Hlog.
  - simpl. repeat split; auto.
    + unfold len. now rewrite length_map.
    + intros _. exists purchases, txns, matched, unmatched.
      repeat split; auto.
      * intros ->. unfold logged_success_rate in Hlog. simpl in Hlog.
        discriminate.
      * exact (_batch_match_lengths _ _ _ _ Hb).
    + intros H. now contradiction H.
  - simpl. repeat split; auto. discriminate.
Qed.

(** ** The update step *)

Lemma update_one_unchanged
  (skybox_update : Z -> Z -> Z -> bool -> result bool)
  (reveal_mark : Z -> Z -> result bool)
  (mapping : cc_mapping) (st : Z * list call) (m : MatchResult) :
  update_one skybox_update reveal_mark mapping st m = st.
Proof.
  unfold update_one, _get_reveal_transaction. now destruct st.
Qed.

(** X10. The update step writes nothing back: [_get_reveal_transaction] has
    no body and returns [None], so for every match the step logs an error
    and goes on; whatever the collaborators and the card mapping are, it
    returns 0 and calls neither [update_purchase_payment] nor
    [mark_transaction_matched]. *)
Theorem update_step_writes_nothing
  (skybox_update : Z -> Z -> Z -> bool -> result bool)
  (reveal_mark : Z -> Z -> result bool)
  (mapping : cc_mapping) (matches : list MatchResult) :
  _update_systems skybox_update reveal_mark mapping matches = (0, []).
Proof.
  unfold _update_systems. generalize (0, @nil call).
  induction matches as [| m rest IH]; intros st; simpl; [reflexivity|].
  now rewrite update_one_unchanged.
Qed.

(** ** What the extraction helpers return *)

Lemma str_app_nil_r (s : string) : (s ++ "")%string = s.
Proof. induction s as [| a s IH]; simpl; [reflexivity | now rewrite IH]. Qed.

Lemma str_app_assoc (a b c : string) :
  ((a ++ b) ++ c)%string = (a ++ b ++ c)%string.
Proof. induction a as [| x a IH]; simpl; [reflexivity | now rewrite IH]. Qed.


(** The characters of a text make up the text, and none is empty. *)
Lemma join_app (a b : list string) :
  join (a ++ b) = (join a ++ join b)%string.
Proof.
  induction a as [| x a IH]; simpl; [reflexivity|].
  now rewrite IH, str_app_assoc.
Qed.

Lemma flush_join (cur : string) : join (flush cur) = cur.
Proof. destruct cur; simpl; [reflexivity | now rewrite str_app_nil_r]. Qed.

Lemma chars_from_join (s : string) :
  forall cur need, join (chars_from s cur need) = (cur ++ s)%string.
Proof.
  induction s as [| b s IH]; intros cur need.
  - simpl. now rewrite flush_join, str_app_nil_r.
  - cbn [chars_from].
    destruct (match need with O => false | S _ => is_continuation b end).
    + destruct need as [| [| k]]; cbn [join fold_right];
        rewrite ?IH; simpl; now rewrite ?str_app_assoc.
    + rewrite join_app, flush_join.
      destruct (utf8_width b) as [| [| w]]; cbn [join fold_right];
        rewrite ?IH; reflexivity.
Qed.

Lemma chars_join (s : string) : join (chars s) = s.
Proof. unfold chars. now rewrite chars_from_join. Qed.

Lemma flush_nonempty (cur : string) :
  Forall (fun c => c <> ""%string) (flush cur).
Proof. destruct cur; repeat constructor. discriminate. Qed.

Lemma str_app_nonempty (a : string) (b : ascii) :
  (a ++ String b "")%string <> ""%string.
Proof. destruct a; discriminate. Qed.

Lemma chars_from_nonempty (s : string) :
  forall cur need, Forall (fun c => c <> ""%string) (chars_from s cur need).
Proof.
  induction s as [| b s IH]; intros cur need.
  - apply flush_nonempty.
  - cbn [chars_from].
    destruct (match need with O => false | S _ => is_continuation b end).
    + destruct need as [| [| k]]; try apply IH;
        (constructor; [apply str_app_nonempty | apply IH]).
    + apply Forall_app. split; [apply flush_nonempty|].
      destruct (utf8_width b) as [| [| w]]; try apply IH;
        (constructor; [discriminate | apply IH]).
Qed.

Lemma join_nonempty (cs : list string) :
  cs <> [] -> Forall (fun c => c <> ""%string) cs -> join cs <> ""%string.
Proof.
  destruct cs as [| c cs]; [congruence|]. intros _ H.
  inversion H as [| ? ? Hc _]; subst. simpl.
  destruct c; [congruence | discriminate].
Qed.

(** What one item of a pattern matched: characters of its class, as many as
    its repetition range allows. *)
Definition item_matches (a : atom) (x : list string) : Prop :=
  forallb (a_class a) x = true
  /\ (a_min a <= List.length x)%nat
  /\ forall h, a_max a = Some h -> (List.length x <= h)%nat.

Lemma re_repeat_inv (c : string -> bool)
  (k : list string -> option (list (list string))) (s : list string) :
  forall lo hi taken parts,
    re_repeat c lo hi k s taken = Some parts ->
    exists x rest parts',
      parts = (taken ++ x)%list :: parts'
      /\ s = (x ++ rest)%list
      /\ k rest = Some parts'
      /\ forallb c x = true
      /\ (lo <= List.length x)%nat
      /\ forall h, hi = Some h -> (List.length x <= h)%nat.
Proof.
  assert (Hstop : forall lo hi taken parts s0,
    match lo with
    | O => option_map (cons taken) (k s0)
    | S _ => None
    end = Some parts ->
    exists x rest parts',
      parts = (taken ++ x)%list :: parts'
      /\ s0 = (x ++ rest)%list
      /\ k rest = Some parts'
      /\ forallb c x = true
      /\ (lo <= List.length x)%nat
      /\ forall h, hi = Some h -> (List.length x <= h)%nat).
  { intros lo hi taken parts s0 H. destruct lo; [|discriminate].
    destruct (k s0) as [parts'|] eqn:Hk; [|discriminate].
    injection H as <-. exists [], s0, parts'.
    rewrite app_nil_r. repeat split; auto. simpl. intros; lia. }
  induction s as [| ch s IH]; intros lo hi taken parts H.
  - simpl in H. now apply Hstop.
  - simpl in H.
    destruct (c ch && may_take hi) eqn:Hc; [|now apply Hstop].
    destruct (re_repeat c (Nat.pred lo) (option_map Nat.pred hi) k s
                (taken ++ [ch])%list) as [r|] eqn:Hr; [|now apply Hstop].
    injection H as <-.
    destruct (IH _ _ _ _ Hr) as (x & rest & parts' & -> & -> & Hk & Hall & Hlo & Hhi).
    apply andb_true_iff in Hc. destruct Hc as [Hch Hmay].
    exists (ch :: x), rest, parts'.
    rewrite <- app_assoc. simpl. rewrite Hch, Hall.
    repeat split; auto; [lia|].
    intros h ->. destruct h as [| h]; [discriminate|].
    specialize (Hhi h eq_refl). lia.
Qed.

Lemma re_match_here_inv (p : pattern) :
  forall s parts,
    re_match_here p s = Some parts ->
    exists rest,
      s = (group0 parts ++ rest)%list
      /\ Forall2 item_matches p parts.
Proof.
  induction p as [| a p IH]; intros s parts H.
  - injection H as <-. exists s. split; [reflexivity | constructor].
  - simpl in H. apply re_repeat_inv in H.
    destruct H as (x & rest & parts' & -> & -> & Hk & Hall & Hlo & Hhi).
    destruct (IH _ _ Hk) as (rest' & -> & Hf).
    exists rest'. unfold group0. simpl. rewrite <- app_assoc.
    split; [reflexivity|]. constructor; [|exact Hf].
    repeat split; auto.
Qed.

Lemma re_scan_inv (p : pattern) (s : list string) :
  forall parts,
    re_scan p s = Some parts ->
    exists pre rest,
      s = (pre ++ group0 parts ++ rest)%list
      /\ Forall2 item_matches p parts.
Proof.
  induction s as [| ch s IH]; intros parts H; simpl in H.
  - destruct (re_match_here p []) as [r|] eqn:Hm; [|discriminate].
    injection H as <-. destruct (re_match_here_inv _ _ _ Hm) as (rest & Hs & Hf).
    exists [], rest. auto.
  - destruct (re_match_here p (ch :: s)) as [r|] eqn:Hm.
    + injection H as <-. destruct (re_match_here_inv _ _ _ Hm) as (rest & Hs & Hf).
      exists [], rest. auto.
    + destruct (IH _ H) as (pre & rest & -> & Hf).
      exists (ch :: pre), rest. auto.
Qed.

(** A pattern whose only capturing item is the last one. *)
Definition captures_last (p : pattern) (g : atom) : Prop :=
  exists front,
    p = (front ++ [g])%list
    /\ Forall (fun a => a_group a = false) front
    /\ a_group g = true.

Lemma group1_last (front : list atom) (g : atom) :
  Forall (fun a => a_group a = false) front ->
  a_group g = true ->
  forall parts,
    Forall2 item_matches (front ++ [g])%list parts ->
    exists before,
      group0 parts = (before ++ group1 (front ++ [g])%list parts)%list
      /\ item_matches g (group1 (front ++ [g])%list parts).
Proof.
  intros Hfront Hg. induction Hfront as [| a front Ha _ IH]; intros parts Hf.
  - inversion Hf as [| ? x ? ps Hx Hrest]; subst.
    inversion Hrest; subst. unfold group0. simpl. rewrite Hg, app_nil_r.
    exists []. auto.
  - inversion Hf as [| ? x ? ps Hx Hrest]; subst.
    destruct (IH _ Hrest) as (before & Hb & Hi).
    unfold group0 in *. simpl. rewrite Ha, Hb. exists (x ++ before)%list.
    now rewrite <- app_assoc.
Qed.

Lemma first_group_match_inv (g : atom) (ps : list pattern) (s r : string) :
  Forall (fun p => captures_last p g) ps ->
  first_group_match ps (PyStr s) = Ok (Some r) ->
  exists pre x post,
    chars s = (pre ++ x ++ post)%list /\ r = join x /\ item_matches g x.
Proof.
  induction 1 as [| p ps (front & -> & Hfront & Hg) _ IH]; simpl; [discriminate|].
  destruct (re_scan _ (chars s)) as [parts|] eqn:Hscan; [|exact IH].
  intros H. injection H as <-.
  destruct (re_scan_inv _ _ _ Hscan) as (pre & rest & Hs & Hf).
  destruct (group1_last _ _ Hfront Hg _ Hf) as (before & Hb & Hi).
  exists (pre ++ before)%list, (group1 (front ++ [g])%list parts), rest.
  rewrite Hs, Hb, <- !app_assoc. auto.
Qed.

Lemma last_four_patterns_capture :
  Forall (fun p => captures_last p four_digits) last_four_patterns.
Proof.
  unfold last_four_patterns.
  apply Forall_cons;
    [exists [lit_i "C"; lit_i "C"; lit_i "#"; star is_space];
     repeat split; repeat constructor|].
  apply Forall_cons;
    [exists [lit_i "C"; lit_i "C"; lit_i ":"; star is_space];
     repeat split; repeat constructor|].
  apply Forall_cons;
    [exists [lit_i "C"; lit_i "C"; plus is_space];
     repeat split; repeat constructor|].
  apply Forall_cons;
    [exists [lit_i "#"]; repeat split; repeat constructor|].
  apply Forall_cons;
    [exists [lit_i "c"; lit_i "c"; opt is_space];
     repeat split; repeat constructor|].
  constructor.
Qed.

Lemma segment_join (s : string) (pre x post : list string) :
  chars s = (pre ++ x ++ post)%list ->
  s = (join pre ++ join x ++ join post)%string
  /\ Forall (fun c => c <> ""%string) x.
Proof.
  intros H. split.
  - rewrite <- (chars_join s), H, !join_app. reflexivity.
  - pose proof (chars_from_nonempty s "" 0) as Hn. fold (chars s) in Hn.
    rewrite H in Hn. apply Forall_app in Hn. destruct Hn as [_ Hn].
    apply Forall_app in Hn. destruct Hn as [Hn _]. exact Hn.
Qed.

(** X11. What [_extract_last_four] returns is always four characters that
    stand together in the notes, each a decimal digit ([\d]: an ASCII digit,
    or a decimal digit of the Unicode database); in particular it is never
    empty, so the last-4 test of strategy 2 is never skipped for an extracted
    value. *)
Theorem last_four_is_four_digits (text : pyval) (r : string) :
  _extract_last_four text = Ok (Some r) ->
  exists s pre digits post,
    text = PyStr s
    /\ chars s = (pre ++ digits ++ post)%list
    /\ r = join digits
    /\ s = (join pre ++ r ++ join post)%string
    /\ List.length digits = 4%nat
    /\ forallb is_digit digits = true
    /\ r <> ""%string.
Proof.
  unfold _extract_last_four, truthy, isinstance_str.
  destruct text as [| s | z]; cbn [negb orb]; rewrite ?orb_true_r;
    try discriminate.
  destruct (s =? "")%string; cbn [negb orb]; [discriminate|].
  intros H.
  destruct (first_group_match_inv _ _ _ _ last_four_patterns_capture H)
    as (pre & digits & post & Hs & -> & Hall & Hlo & Hhi).
  simpl in Hlo. specialize (Hhi 4%nat eq_refl).
  destruct (segment_join _ _ _ _ Hs) as [Hj Hn].
  exists s, pre, digits, post. repeat split; auto; [lia|].
  apply join_nonempty; [|exact Hn].
  intros ->. simpl in Hlo. lia.
Qed.

Lemma forallb_single (b : ascii) (x : list string) :
  forallb (is_char b) x = true ->
  (1 <= List.length x)%nat ->
  (List.length x <= 1)%nat ->
  x = [String b ""].
Proof.
  destruct x as [| a [| c x]]; simpl; intros H H1 H2; try lia.
  rewrite andb_true_r in H. apply String.eqb_eq in H. now subst.
Qed.

Lemma list_nonempty {A : Type} (x : list A) :
  (1 <= List.length x)%nat -> x <> [].
Proof. intros H ->. simpl in H. lia. Qed.

(** X12. What [_extract_email] returns stands in the notes as it is and has
    the shape local@domain.tld: a non-empty local part and a non-empty domain
    made of word characters ([\w]), dots and hyphens, then a dot and a
    non-empty run of word characters. *)
Theorem email_has_address_shape (text : pyval) (r : string) :
  _extract_email text = Ok (Some r) ->
  exists s pre local domain tld post,
    text = PyStr s
    /\ chars s
       = (pre ++ (local ++ ["@"] ++ domain ++ ["."] ++ tld) ++ post)%list
    /\ r = (join local ++ "@" ++ join domain ++ "." ++ join tld)%string
    /\ s = (join pre ++ r ++ join post)%string
    /\ local <> [] /\ domain <> [] /\ tld <> []
    /\ forallb is_email_char local = true
    /\ forallb is_email_char domain = true
    /\ forallb is_word tld = true.
Proof.
  unfold _extract_email, truthy, isinstance_str.
  destruct text as [| s | z]; cbn [negb orb]; rewrite ?orb_true_r;
    try discriminate.
  destruct (s =? "")%string; cbn [negb orb]; [discriminate|].
  cbn [re_search bind].
  destruct (re_scan email_pattern (chars s)) as [parts|] eqn:Hscan;
    [|discriminate].
  intros H. injection H as <-.
  destruct (re_scan_inv _ _ _ Hscan) as (pre & post & Hs & Hf).
  unfold email_pattern in Hf.
  inversion Hf as [| ? local ? ps1 (Hl & Hl1 & _) Hf1]; subst; clear Hf.
  inversion Hf1 as [| ? at_sign ? ps2 (Ha & Ha1 & Ha2) Hf2]; subst; clear Hf1.
  inversion Hf2 as [| ? domain ? ps3 (Hd & Hd1 & _) Hf3]; subst; clear Hf2.
  inversion Hf3 as [| ? dot ? ps4 (Ho & Ho1 & Ho2) Hf4]; subst; clear Hf3.
  inversion Hf4 as [| ? tld ? ps5 (Ht & Ht1 & _) Hf5]; subst; clear Hf4.
  inversion Hf5; subst; clear Hf5.
  cbn [a_class a_min a_max plus lit] in *.
  rewrite (forallb_single _ _ Ha Ha1 (Ha2 _ eq_refl)) in *.
  rewrite (forallb_single _ _ Ho Ho1 (Ho2 _ eq_refl)) in *.
  unfold group0 in *. cbn [List.concat] in *. rewrite app_nil_r in *.
  destruct (segment_join _ _ _ _ Hs) as [Hj _].
  exists s, pre, local, domain, tld, post.
  split; [reflexivity|]. split; [exact Hs|].
  assert (Hr : join (local ++ ["@"] ++ domain ++ ["."] ++ tld)
               = (join local ++ "@" ++ join domain ++ "." ++ join tld)%string).
  { rewrite !join_app. reflexivity. }
  rewrite Hr in *. split; [reflexivity|]. split; [exact Hj|].
  repeat split; auto using list_nonempty.
Qed.

(** ** Keywords of an event name *)






















(** ** The HTTP endpoint *)

Lemma parse_request_date_invalid (field : option string) (name s msg : string) :
  field = Some s ->
  s <> ""%string ->
  fromisoformat s = Raise (ValueError msg) ->
  parse_request_date field name
  = HTTPException 400 ("Invalid " ++ name ++ " format. Use YYYY-MM-DD").
Proof.
  intros -> Hs Hv. unfold parse_request_date.
  apply String.eqb_neq in Hs. now rewrite Hs, Hv.
Qed.

(** X14. How the endpoint maps failures.  A start or end date that
    [fromisoformat] rejects with [ValueError] is answered with status 400
    before any service is built; once the window is settled, an exception of
    [get_services] or of the report writer is answered with status 500 and
    the text "Reconciliation failed: " followed by the message; and when no
    start date is given and the end date is less than 30 days after
    0001-01-01, the subtraction of 30 days raises [OverflowError], which no
    handler of the endpoint catches. *)
Theorem endpoint_error_mapping (uuid4 : string) (clock : datetime) (now : string)
  (get_services : result unit) (debugger : result unit)
  (fetch_purchases : datetime -> datetime -> result (list Purchase.t))
  (fetch_transactions : datetime -> datetime -> result (list Txn.t))
  (generate_daily_report : ReconciliationResult -> result string)
  (request : ReconcileRequest) :
  let run := reconcile_endpoint uuid4 clock now get_services debugger
               fetch_purchases fetch_transactions generate_daily_report request in
  (forall s msg,
      start_date request = Some s -> s <> ""%string ->
      fromisoformat s = Raise (ValueError msg) ->
      run = HTTPException 400 "Invalid start_date format. Use YYYY-MM-DD")
  /\ (forall start s msg,
        parse_request_date (start_date request) "start_date" = Returned start ->
        end_date request = Some s -> s <> ""%string ->
        fromisoformat s = Raise (ValueError msg) ->
        run = HTTPException 400 "Invalid end_date format. Use YYYY-MM-DD")
  /\ (forall start finish e,
        resolve_window request clock = Returned (start, finish) ->
        get_services = Raise e ->
        run = HTTPException 500 ("Reconciliation failed: " ++ exn_str e))
  /\ (forall start finish e,
        resolve_window request clock = Returned (start, finish) ->
        get_services = Ok tt ->
        generate_daily_report
          (reconcile_transactions now debugger (fetch_purchases start finish)
             (fetch_transactions start finish)) = Raise e ->
        run = HTTPException 500 ("Reconciliation failed: " ++ exn_str e))
  /\ (forall finish,
        parse_request_date (start_date request) "start_date" = Returned None ->
        parse_request_date (end_date request) "end_date" = Returned finish ->
        wall (match finish with Some d => d | None => clock end)
        < 30 * us_per_day ->
        run = Unhandled (OverflowError "date value out of range")).
Proof.
  cbv zeta. unfold reconcile_endpoint. repeat apply conj.
  - intros s msg Hs Hne Hv. unfold resolve_window.
    now rewrite (parse_request_date_invalid _ "start_date" _ _ Hs Hne Hv).
  - intros start s msg Hst Hs Hne Hv. unfold resolve_window.
    now rewrite Hst, (parse_request_date_invalid _ "end_date" _ _ Hs Hne Hv).
  - intros start finish e -> ->. reflexivity.
  - intros start finish e -> -> Hr. cbn [bind]. now rewrite Hr.
  - intros finish Hst Hfin Hw. unfold resolve_window. rewrite Hst, Hfin.
    unfold minus_days.
    replace (_ <? 0) with true; [reflexivity|].
    symmetry. apply Z.ltb_lt. lia.
Qed.

(** X15. A run that failed is still answered as completed.  When the
    services are built, the purchase fetch raises and the report is written,
    the endpoint returns a response with status "completed", the message
    "Reconciliation complete. Matched 0/0 purchases." and the report that
    holds the error: the failure of the fetch does not become an HTTP
    error. *)
Theorem failed_fetch_answers_completed (uuid4 : string) (clock : datetime)
  (now : string)
  (fetch_purchases : datetime -> datetime -> result (list Purchase.t))
  (fetch_transactions : datetime -> datetime -> result (list Txn.t))
  (generate_daily_report : ReconciliationResult -> result string)
  (request : ReconcileRequest) (start finish : datetime) (e : exn)
  (path : string) :
  resolve_window request clock = Returned (start, finish) ->
  fetch_purchases start finish = Raise e ->
  generate_daily_report
    {| timestamp := now; total_purchases := 0; total_transactions := 0;
       matches_found := 0; matches_updated := 0; unmatched_purchases := 0;
       errors := [exn_str e]; matches := [] |} = Ok path ->
  reconcile_endpoint uuid4 clock now (Ok tt) (Ok tt)
    fetch_purchases fetch_transactions generate_daily_report request
  = Returned
      {| job_id := uuid4;
         status := "completed";
         message := "Reconciliation complete. Matched 0/0 purchases.";
         result_dict :=
           Some {| timestamp := now; total_purchases := 0;
                   total_transactions := 0; matches_found := 0;
                   matches_updated := 0; unmatched_purchases := 0;
                   errors := [exn_str e]; matches := [] |} |}.
Proof.
  intros Hw Hf Hr. unfold reconcile_endpoint. rewrite Hw. cbn [bind].
  cbv zeta. rewrite Hf.
  change (reconcile_transactions now (Ok tt) (Raise e)
            (fetch_transactions start finish))
    with {| timestamp := now; total_purchases := 0; total_transactions := 0;
            matches_found := 0; matches_updated := 0;
            unmatched_purchases := 0;
            errors := [exn_str e]; matches := [] |}.
  rewrite Hr. reflexivity.
Qed.

End Engine.

(** * The properties on the examples *)

Lemma meta_1_extracted : _extract_skybox_metadata ucd_fragment iso_reader purchase_1 = Ok meta_1.
Proof. vm_compute. reflexivity. Qed.

Lemma meta_2_extracted : _extract_skybox_metadata ucd_fragment iso_reader purchase_2 = Ok meta_2.
Proof. vm_compute. reflexivity. Qed.

Lemma meta_2_card_extracted :
  _extract_skybox_metadata ucd_fragment iso_reader purchase_2_card = Ok meta_2_card.
Proof. vm_compute. reflexivity. Qed.

Lemma meta_3_extracted : _extract_skybox_metadata ucd_fragment iso_reader purchase_3 = Ok meta_3.
Proof. vm_compute. reflexivity. Qed.

Ltac well_formed_example :=
  repeat constructor;
  [ eexists; vm_compute; reflexivity
  | eexists; split; vm_compute; reflexivity ].

Lemma example_pool_well_formed :
  Forall (well_formed iso_reader) [txn_10; txn_9; txn_19; txn_10_card; txn_far].
Proof.
  repeat (apply Forall_cons; [well_formed_example|]). constructor.
Qed.

(** The first end-to-end example: a single match of confidence 1.0. *)
Lemma order_number_example :
  match_transactions ucd_fragment iso_reader purchase_1 [txn_9]
  = Ok (Some {| skybox_id := 1; reveal_id := 9;
                confidence_score := 1.0%float;
                match_criteria := ["order_number"; "amount"];
                metadata := [("order_number", MVal (PyStr "ORD123"));
                             ("amount_diff", MVal (PyInt 0))] |}).
Proof. vm_compute. reflexivity. Qed.

(** Two transactions carry the order number: the earlier one is returned. *)
Lemma tie_break_example :
  option_map reveal_id
    (match match_transactions ucd_fragment iso_reader purchase_1 [txn_10; txn_9; txn_19] with
     | Ok r => r
     | Raise _ => None
     end) = Some 9.
Proof. vm_compute. reflexivity. Qed.

Lemma order_number_match_selected_witness :
  exists m,
    match_transactions ucd_fragment iso_reader purchase_1 [txn_10; txn_9; txn_19] = Ok (Some m)
    /\ confidence_score m = 1.0%float
    /\ In "order_number" (match_criteria m).
Proof.
  destruct (order_number_match_selected ucd_fragment iso_reader purchase_1 meta_1 txn_9
              150.0%float) as [_ H].
  - exact meta_1_extracted.
  - reflexivity.
  - left. vm_compute. reflexivity.
  - vm_compute. reflexivity.
  - vm_compute. reflexivity.
  - apply (H [txn_10; txn_9; txn_19]).
    + simpl. auto.
    + repeat (apply Forall_cons; [well_formed_example|]). constructor.
Defined.

Lemma far_amount_never_matches_witness :
  score_candidate iso_reader meta_1 txn_far = Ok None.
Proof.
  apply (far_amount_never_matches iso_reader meta_1 txn_far 200.0%float).
  - vm_compute. reflexivity.
  - vm_compute. reflexivity.
Defined.

Lemma match_transactions_first_best_witness :
  exists m pre txn post,
    match_transactions ucd_fragment iso_reader purchase_1 [txn_10; txn_9; txn_19] = Ok (Some m)
    /\ [txn_10; txn_9; txn_19] = (pre ++ txn :: post)%list
    /\ score_candidate iso_reader meta_1 txn = Ok (Some m)
    /\ (0.75 <=? confidence_score m)%float = true
    /\ (forall t' m', In t' pre ->
          score_candidate iso_reader meta_1 t' = Ok (Some m') ->
          (confidence_score m' <? confidence_score m)%float = true)
    /\ (forall t' m', In t' post ->
          score_candidate iso_reader meta_1 t' = Ok (Some m') ->
          (confidence_score m' <=? confidence_score m)%float = true).
Proof.
  apply (match_transactions_first_best ucd_fragment iso_reader purchase_1 meta_1).
  - exact meta_1_extracted.
  - repeat (apply Forall_cons; [eexists; vm_compute; reflexivity|]). constructor.
  - exists txn_19. eexists. split; [simpl; auto | vm_compute; reflexivity].
Defined.

(** The second example scores 0.70 and is not matched; with the card digits
    it scores 0.70 + 0.20 and is matched. *)
Lemma floor_example :
  multi_criteria_signals iso_reader meta_2 txn_10
  = Ok (Some ((["amount_exact"; "date_same_day"], 0.70%float), 0%float))
  /\ match_transactions ucd_fragment iso_reader purchase_2 [txn_10] = Ok None.
Proof. split; vm_compute; reflexivity. Qed.

Lemma last_four_example :
  match_transactions ucd_fragment iso_reader purchase_2_card [txn_10_card]
  = Ok (Some {| skybox_id := 2; reveal_id := 10;
                confidence_score := (0.70 + 0.20)%float;
                match_criteria := ["amount_exact"; "date_same_day"; "last_four"];
                metadata := [("amount_diff", MFloat 0);
                             ("is_automated", MBool false)] |}).
Proof. vm_compute. reflexivity. Qed.

Lemma example_pair_2 : exact_amount_pair iso_reader meta_2 txn_10 0.
Proof.
  exists 75.0%float, midnight_2026_02_01. repeat split; vm_compute; reflexivity.
Qed.

Lemma example_pair_2_card :
  exact_amount_pair iso_reader meta_2_card txn_10_card 0.
Proof.
  exists 75.0%float, midnight_2026_02_01. repeat split; vm_compute; reflexivity.
Qed.

Lemma multi_criteria_monotone_capped_witness :
  exists st d st' d',
    multi_criteria_signals iso_reader meta_2 txn_10 = Ok (Some (st, d))
    /\ multi_criteria_signals iso_reader meta_2_card txn_10_card
       = Ok (Some (st', d'))
    /\ (snd st <? snd st')%float = true.
Proof.
  destruct (multi_criteria_monotone_capped iso_reader) as (_ & H & _).
  apply (H meta_2 txn_10 0 meta_2_card txn_10_card 0).
  - exact example_pair_2.
  - exact example_pair_2_card.
  - right. reflexivity.
  - intros H'. vm_compute in H'. discriminate.
  - right. vm_compute. discriminate.
Defined.

(** C4, the claim as stated fails: a matching last-4 on top of an exact
    amount on the same day does not raise the score to 0.90.  The score is
    the binary64 sum 0.70 + 0.20 = 0.8999999999999999, which is below 0.90. *)
Lemma last_four_score_below_ninety :
  exact_amount_pair iso_reader meta_2_card txn_10_card 0
  /\ last_four_qualifies meta_2_card txn_10_card = true
  /\ exists m,
      _match_by_multiple_criteria iso_reader meta_2_card txn_10_card
      = Ok (Some m)
      /\ (confidence_score m =? 0.90)%float = false
      /\ (confidence_score m <? 0.90)%float = true.
Proof.
  split; [exact example_pair_2_card|]. split; [reflexivity|].
  eexists. split; [vm_compute; reflexivity|]. split; reflexivity.
Qed.

Lemma filter_keeps_accepted_witness :
  exists cands,
    _filter_candidate_transactions iso_reader purchase_2_card
      [txn_9; txn_10_card; txn_far] = Ok cands
    /\ In txn_10_card cands.
Proof.
  destruct (filter_keeps_accepted ucd_fragment iso_reader purchase_2_card meta_2_card
              txn_10_card
              {| skybox_id := 2; reveal_id := 10;
                 confidence_score := (0.70 + 0.20)%float;
                 match_criteria := ["amount_exact"; "date_same_day"; "last_four"];
                 metadata := [("amount_diff", MFloat 0);
                              ("is_automated", MBool false)] |})
    as (_ & Hkeep & Htotal).
  - exact meta_2_card_extracted.
  - vm_compute. reflexivity.
  - destruct (Htotal [txn_9; txn_10_card; txn_far]) as (cands & Hc).
    + repeat (apply Forall_cons; [well_formed_example|]). constructor.
    + exists cands. split; [exact Hc|].
      apply (Hkeep _ _ Hc). simpl. auto.
Defined.

Lemma batch_example :
  batch_match_transactions ucd_fragment iso_reader
    [purchase_3; purchase_1; purchase_2_card; purchase_2]
    [txn_9; txn_10_card; txn_far]
  = Ok ([ {| skybox_id := 1; reveal_id := 9;
             confidence_score := 1.0%float;
             match_criteria := ["order_number"; "amount"];
             metadata := [("order_number", MVal (PyStr "ORD123"));
                          ("amount_diff", MVal (PyInt 0))] |};
          {| skybox_id := 2; reveal_id := 10;
             confidence_score := (0.70 + 0.20)%float;
             match_criteria := ["amount_exact"; "date_same_day"; "last_four"];
             metadata := [("amount_diff", MFloat 0);
                          ("is_automated", MBool false)] |} ],
        [purchase_2; purchase_3]).
Proof. vm_compute. reflexivity. Qed.

Lemma batch_partitions_purchases_witness :
  exists matched unmatched matched_from,
    batch_match_transactions ucd_fragment iso_reader
      [purchase_3; purchase_1; purchase_2_card; purchase_2]
      [txn_9; txn_10_card; txn_far] = Ok (matched, unmatched)
    /\ len matched + len unmatched = 4
    /\ map Purchase.id matched_from = map skybox_id matched
    /\ Permutation (matched_from ++ unmatched)
                   [purchase_3; purchase_1; purchase_2_card; purchase_2].
Proof.
  destruct (batch_partitions_purchases ucd_fragment iso_reader
              [purchase_3; purchase_1; purchase_2_card; purchase_2]
              [txn_9; txn_10_card; txn_far]) as (Hpart & _ & Htotal).
  destruct Htotal as (matched & unmatched & Hb).
  - repeat (apply Forall_cons; [eexists; vm_compute; reflexivity|]). constructor.
  - repeat (apply Forall_cons; [well_formed_example|]). constructor.
  - destruct (Hpart _ _ Hb) as (Hlen & from & Hids & Hperm).
    exists matched, unmatched, from. repeat split; auto.
Defined.

Lemma extraction_helpers_total_witness :
  _extract_email ucd_fragment (PyInt 7) = Ok None
  /\ _extract_last_four ucd_fragment PyNone = Ok None
  /\ _extract_last_four ucd_fragment (PyStr "paid CC# 4242") = Ok (Some "4242")
  /\ multi_criteria_signals iso_reader (set_last_four meta_2_card None) txn_10_card
     = Ok (Some ((["amount_exact"; "date_same_day"], 0.70%float), 0%float)).
Proof.
  destruct (extraction_helpers_total ucd_fragment iso_reader) as (_ & _ & Hnone & _ & _ & Hdrop & _).
  split; [|split; [|split]].
  - apply Hnone. right. right. exists 7. reflexivity.
  - apply Hnone. left. reflexivity.
  - vm_compute. reflexivity.
  - destruct (Hdrop meta_2_card txn_10_card
                (["amount_exact"; "date_same_day"; "last_four"], (0.70 + 0.20)%float)
                0%float) as (exact & day & l4 & Hst & Hsig).
    + vm_compute. reflexivity.
    + change (["amount_exact"; "date_same_day"; "last_four"], (0.70 + 0.20)%float)
        with (fired true (Some true) true) in Hst.
      apply fired_inj in Hst. destruct Hst as (<- & <- & _). exact Hsig.
Defined.

(** C3. A purchase of 75.00 created at 15:00 and a transaction of 7500 dated
    the same calendar day, no reference, no last-4: the day count of the
    negative difference is -1, so the engine records date_within_3_days and
    scores 0.40 + 0.20, not date_same_day and 0.70; nothing is matched. *)
Theorem same_calendar_day_scored_within_3_days :
  _extract_skybox_metadata ucd_fragment iso_reader purchase_3 = Ok meta_3
  /\ iso_reader (Txn.date txn_10) = Ok midnight_2026_02_01
  /\ calendar_day midnight_2026_02_01 = calendar_day (m_created_date meta_3)
  /\ dt_sub midnight_2026_02_01 (m_created_date meta_3) = Ok (-54000000000)
  /\ td_days (-54000000000) = -1
  /\ multi_criteria_signals iso_reader meta_3 txn_10
     = Ok (Some ((["amount_exact"; "date_within_3_days"], (0.0 + 0.40 + 0.20)%float),
                 0%float))
  /\ ((0.0 + 0.40 + 0.20)%float =? 0.70)%float = false
  /\ match_transactions ucd_fragment iso_reader purchase_3 [txn_10] = Ok None.
Proof. repeat split; vm_compute; reflexivity. Qed.

(** C7, the claim as stated fails: the purchases are fetched, the transaction
    fetch raises, and the report counts the purchase. *)
Lemma transaction_fetch_failure_counts_purchases :
  let r := reconcile_transactions ucd_fragment iso_reader "2026-02-03T09:00:00" (Ok tt)
             (Ok [purchase_1]) (Raise (RequestException "503 Server Error")) in
  errors r = ["503 Server Error"]
  /\ total_purchases r = 1
  /\ ~ zero_counts r.
Proof.
  cbv zeta. repeat split.
  intros (H & _). vm_compute in H. discriminate.
Qed.

(** A run with purchases and no failure reports no error. *)
Lemma reconcile_example :
  let r := reconcile_transactions ucd_fragment iso_reader "2026-02-03T09:00:00" (Ok tt)
             (Ok [purchase_1; purchase_2]) (Ok [txn_9; txn_10]) in
  errors r = [] /\ matches_found r = 1 /\ unmatched_purchases r = 1
  /\ summary_success_rate r = Ok 50.0%float.
Proof. cbv zeta. repeat split; vm_compute; reflexivity. Qed.

Lemma exact_amount_day_zero_below_floor_witness :
  multi_criteria_signals iso_reader meta_2 txn_10
  = Ok (Some ((["amount_exact"; "date_same_day"], 0.70%float),
              abs (75.0 - Purchase.total purchase_2)%float))
  /\ (0.75 <=? 0.70)%float = false
  /\ _match_by_multiple_criteria iso_reader meta_2 txn_10 = Ok None
  /\ score_candidate iso_reader meta_2 txn_10 = Ok None
  /\ match_transactions ucd_fragment iso_reader purchase_2 [txn_10] = Ok None.
Proof.
  apply (exact_amount_day_zero_below_floor ucd_fragment iso_reader purchase_2 meta_2 txn_10
           75.0%float midnight_2026_02_01).
  - exact meta_2_extracted.
  - reflexivity.
  - vm_compute. reflexivity.
  - vm_compute. reflexivity.
  - vm_compute. reflexivity.
  - vm_compute. reflexivity.
  - reflexivity.
Defined.

Lemma exact_amount_same_calendar_day_unmatched_witness :
  multi_criteria_signals iso_reader meta_3 txn_10
  = Ok (Some ((["amount_exact"; "date_within_3_days"],
               (0.0 + 0.40 + 0.20)%float), 0%float))
  /\ match_transactions ucd_fragment iso_reader purchase_3 [txn_10] = Ok None.
Proof.
  exact (exact_amount_same_calendar_day_unmatched ucd_fragment iso_reader
           purchase_3 meta_3 txn_10 75.0%float midnight_2026_02_01
           meta_3_extracted eq_refl eq_refl eq_refl eq_refl eq_refl eq_refl
           eq_refl).
Defined.

(** ** The further properties on the examples *)

(** A no-break space separates words like any other white space. *)
Lemma keywords_example :
  _extract_keywords ucd_fragment
    (PyStr ("Lakers" ++ utf8 160 ++ "vs Celtics at The Arena"))
  = ["lakers"; "celtics"; "arena"].
Proof. vm_compute. reflexivity. Qed.

Lemma match_is_justified_witness :
  exists txn a,
    In txn [txn_9; txn_10_card]
    /\ Txn.id txn = 10
    /\ reveal_amount txn = Ok a
    /\ (abs (a - 75.0) <? 0.01)%float = true.
Proof.
  destruct (match_is_justified ucd_fragment iso_reader purchase_2_card [txn_9; txn_10_card]
              {| skybox_id := 2; reveal_id := 10;
                 confidence_score := (0.70 + 0.20)%float;
                 match_criteria := ["amount_exact"; "date_same_day"; "last_four"];
                 metadata := [("amount_diff", MFloat 0);
                              ("is_automated", MBool false)] |})
    as (txn & a & created & Hin & _ & Hid & Ha & Hamt & _).
  - vm_compute. reflexivity.
  - exists txn, a. repeat split; auto.
Defined.

Lemma no_reference_no_card_never_matches_witness :
  match_transactions ucd_fragment iso_reader purchase_2 [txn_10; txn_10_card; txn_9] = Ok None.
Proof.
  pose proof (no_reference_no_card_never_matches ucd_fragment iso_reader purchase_2
                [txn_10; txn_10_card; txn_9] eq_refl eq_refl) as H.
  destruct (match_transactions ucd_fragment iso_reader purchase_2 [txn_10; txn_10_card; txn_9])
    as [[m|]|e] eqn:E.
  - exfalso. exact (H m eq_refl).
  - reflexivity.
  - vm_compute in E. discriminate.
Defined.

Lemma candidate_filter_exact_witness :
  exists created,
    [txn_10_card]
    = filter (keeps iso_reader (Purchase.total purchase_2_card) created)
             [txn_9; txn_10_card; txn_far].
Proof.
  destruct (candidate_filter_exact iso_reader purchase_2_card
              [txn_9; txn_10_card; txn_far] [txn_10_card])
    as (created & _ & H & _).
  - vm_compute. reflexivity.
  - exists created. exact H.
Defined.

Lemma unusable_date_aborts_run_witness :
  errors (reconcile_transactions ucd_fragment iso_reader "2026-02-03T09:00:00" (Ok tt)
            (Ok [purchase_1]) (Ok [txn_9; txn_aware; txn_10]))
  = ["can't subtract offset-naive and offset-aware datetimes"].
Proof.
  destruct (unusable_date_aborts_run ucd_fragment iso_reader "2026-02-03T09:00:00"
              [purchase_1] [txn_9] txn_aware [txn_10] 9999.0%float
              (TypeError "can't subtract offset-naive and offset-aware datetimes"))
    as [_ H].
  - discriminate.
  - repeat constructor. eexists. vm_compute. reflexivity.
  - repeat (apply Forall_cons; [well_formed_example|]). constructor.
  - vm_compute. reflexivity.
  - right. eexists. eexists. split; [vm_compute; reflexivity|].
    split; reflexivity.
  - change [txn_9; txn_aware; txn_10]
      with ([txn_9] ++ txn_aware :: [txn_10])%list.
    rewrite H. reflexivity.
Defined.

(** Two purchases paid with the same card on consecutive days are both
    matched to the one transaction of that card. *)
Lemma double_claim_example :
  match batch_match_transactions ucd_fragment iso_reader [purchase_2_card; purchase_4_card]
          [txn_10_card] with
  | Ok (matched, unmatched) =>
      map skybox_id matched = [2; 4] /\ map reveal_id matched = [10; 10]
      /\ unmatched = []
  | Raise _ => False
  end.
Proof. vm_compute. repeat split. Qed.

Lemma batch_decides_each_purchase_alone_witness :
  exists matched unmatched m,
    batch_match_transactions ucd_fragment iso_reader [purchase_2_card; purchase_4_card]
      [txn_10_card] = Ok (matched, unmatched)
    /\ batch_match_transactions ucd_fragment iso_reader [purchase_4_card] [txn_10_card]
       = Ok ([m], [])
    /\ In m matched.
Proof.
  destruct (batch_match_transactions ucd_fragment iso_reader
              [purchase_2_card; purchase_4_card] [txn_10_card])
    as [[matched unmatched]|e] eqn:Hb; [|vm_compute in Hb; discriminate].
  destruct (batch_decides_each_purchase_alone ucd_fragment iso_reader _ _ _ _ purchase_4_card Hb)
    as [(m & H1 & H2) | (H1 & _)].
  - simpl. auto.
  - exists matched, unmatched, m. repeat split; auto.
  - vm_compute in H1. discriminate.
Defined.

Lemma batch_outputs_in_creation_order_witness :
  StronglySorted created_leb [purchase_2; purchase_3].
Proof.
  destruct (batch_outputs_in_creation_order ucd_fragment iso_reader _ _ _ _ batch_example)
    as (_ & H & _).
  exact H.
Defined.

(** Notes with a no-break space (U+00A0) after the sign, and notes whose
    digits are Arabic-Indic (U+0664, U+0662). *)
Definition notes_nbsp : string := "CC#" ++ utf8 160 ++ "4242".

Definition notes_arabic_indic : string :=
  "cc " ++ utf8 1636 ++ utf8 1634 ++ utf8 1636 ++ utf8 1634.

Lemma unicode_last_four_example :
  _extract_last_four ucd_fragment (PyStr notes_nbsp) = Ok (Some "4242")
  /\ _extract_last_four ucd_fragment (PyStr notes_arabic_indic)
     = Ok (Some (utf8 1636 ++ utf8 1634 ++ utf8 1636 ++ utf8 1634))
  /\ py_len (utf8 1636 ++ utf8 1634 ++ utf8 1636 ++ utf8 1634) = 4%nat.
Proof. repeat split; vm_compute; reflexivity. Qed.

Lemma last_four_is_four_digits_witness :
  exists pre digits post,
    chars notes_nbsp = (pre ++ digits ++ post)%list
    /\ "4242" = join digits
    /\ forallb (is_digit ucd_fragment) digits = true.
Proof.
  destruct (last_four_is_four_digits ucd_fragment (PyStr notes_nbsp) "4242")
    as (s & pre & digits & post & Ht & Hs & Hr & _ & _ & Hd & _).
  - vm_compute. reflexivity.
  - injection Ht as <-. exists pre, digits, post. auto.
Defined.

Lemma email_has_address_shape_witness :
  exists local domain tld,
    "jane.doe@example.com"
    = (join local ++ "@" ++ join domain ++ "." ++ join tld)%string
    /\ tld <> [].
Proof.
  destruct (email_has_address_shape ucd_fragment
              (PyStr "buyer jane.doe@example.com, paid") "jane.doe@example.com")
    as (s & pre & local & domain & tld & post & _ & _ & Hr & _ & _ & _ & Ht & _).
  - vm_compute. reflexivity.
  - exists local, domain, tld. split; assumption.
Defined.

Lemma failed_fetch_answers_completed_witness :
  exists resp,
    reconcile_endpoint ucd_fragment iso_reader "job-1" clock_2026_02_03 "2026-02-03T09:00:00"
      (Ok tt) (Ok tt)
      (fun _ _ => Raise (RequestException "503 Server Error"))
      (fun _ _ => Ok [])
      (fun _ => Ok "reports/reconciliation.json")
      request_default = Returned resp
    /\ status resp = "completed"
    /\ message resp = "Reconciliation complete. Matched 0/0 purchases.".
Proof.
  eexists. split.
  - eapply (failed_fetch_answers_completed ucd_fragment iso_reader).
    + vm_compute. reflexivity.
    + reflexivity.
    + reflexivity.
  - split; reflexivity.
Defined.

(** An end date in the first month of year 1 without a start date: the
    default start cannot be computed. *)
Lemma endpoint_overflow_example :
  reconcile_endpoint ucd_fragment iso_reader "job-1" clock_2026_02_03 "2026-02-03T09:00:00"
    (Ok tt) (Ok tt) (fun _ _ => Ok []) (fun _ _ => Ok [])
    (fun _ => Ok "reports/reconciliation.json")
    {| start_date := None; end_date := Some "0001-01-15"; dry_run := true |}
  = Unhandled (OverflowError "date value out of range").
Proof. vm_compute. reflexivity. Qed.
